(** * Conversational intake controller (chatbot screen): shallow embedding

    The repository holds two near-duplicate [ChatbotScreen] components:
    a five-question variant (name, skills, location, experience, job type)
    and a seven-question variant (name, job role, skills, job level,
    certification level, proficiency level, profile count).  Both are
    embedded below, handler by handler, as pure transition functions over
    the component's React state.

    Conventions.
    - A JavaScript string is the list of its UTF-16 code units ([list N]).
    - A JavaScript number is [JSNum]: [NaN] or an integer.  [parseInt] is
      the only producer of numbers here; the double it returns is the
      rounding of the exact integer kept in the model, rounding is monotone
      and exact on the small ranges the validators test, so every comparison
      made by the code has the same outcome on the exact value.  [-0] and
      [0] are identified.
    - A handler reads the state of the render it was created in (the
      closure snapshot [s]) and queues writes; the model returns the state
      after all queued writes.
    - [Date.now()] and the outcome of the network call are inputs; a
      message takes its id and its time stamp from the same reading.  A
      handler that awaits the submission is run to its end in one step.
    - [toast.*] and [setTimeout] calls are recorded in the state
      ([toasts], [timers]) so that their absence can be stated. *)

From Stdlib Require Import ZArith NArith List Bool Ascii String DecimalString.
From stdpp Require Import base decidable numbers list.

Abbreviation jsstring := (list N).

(** ** JavaScript primitives used by the component *)
Module JS.

(** Code units of an ASCII literal of the source. *)
Definition str (s : string) : jsstring :=
  map N_of_ascii (list_ascii_of_string s).

(** [WhiteSpace] and [LineTerminator] code points of ECMAScript, the set
    stripped by [String.prototype.trim] and skipped by [parseInt]. *)
Definition isWhiteSpace (c : N) : bool :=
  ((9 <=? c) && (c <=? 13) || (c =? 32) || (c =? 160) || (c =? 5760)
   || (8192 <=? c) && (c <=? 8202) || (c =? 8232) || (c =? 8233)
   || (c =? 8239) || (c =? 8287) || (c =? 12288) || (c =? 65279))%N.

Fixpoint trimStart (s : jsstring) : jsstring :=
  match s with
  | c :: r => if isWhiteSpace c then trimStart r else s
  | [] => []
  end.

Definition trimEnd (s : jsstring) : jsstring :=
  rev (trimStart (rev s)).

(** [s.trim()] *)
Definition trim (s : jsstring) : jsstring := trimEnd (trimStart s).

(** [s.includes(',')] and the like: search for one code unit. *)
Definition includesChar (c : N) (s : jsstring) : bool :=
  existsb (N.eqb c) s.

(** [arr.includes(x)] on an array of strings. *)
Definition includes (arr : list jsstring) (x : jsstring) : bool :=
  bool_decide (x ∈ arr).

(** [s.split(sep)] for a one-code-unit separator: never returns the empty
    array; an empty [s] gives one empty piece. *)
Fixpoint split (sep : N) (s : jsstring) : list jsstring :=
  match s with
  | [] => [[]]
  | c :: r =>
      if (c =? sep)%N then [] :: split sep r
      else match split sep r with
           | h :: t => (c :: h) :: t
           | [] => [[c]]
           end
  end.

(** Truthiness of a string ([Boolean(s)], [!s]): non-empty. *)
Definition truthy (s : jsstring) : bool :=
  match s with [] => false | _ :: _ => true end.

(** Numbers. *)
Inductive JSNum := NaN | Int (z : Z).

Definition isNaN (x : JSNum) : bool :=
  match x with NaN => true | Int _ => false end.

(** [x >= k] and [x <= k]: false on [NaN]. *)
Definition geq (x : JSNum) (k : Z) : bool :=
  match x with NaN => false | Int z => (k <=? z)%Z end.
Definition leq (x : JSNum) (k : Z) : bool :=
  match x with NaN => false | Int z => (z <=? k)%Z end.

(** Value of a code unit as a digit: 0-9, a-z, A-Z. *)
Definition digitValue (c : N) : option N :=
  if ((48 <=? c) && (c <=? 57))%N then Some (c - 48)%N
  else if ((97 <=? c) && (c <=? 122))%N then Some (c - 87)%N
  else if ((65 <=? c) && (c <=? 90))%N then Some (c - 55)%N
  else None.

(** Digit values of the longest prefix made of radix-[R] digits. *)
Fixpoint radixDigits (R : N) (s : jsstring) : list N :=
  match s with
  | c :: r =>
      match digitValue c with
      | Some d => if (d <? R)%N then d :: radixDigits R r else []
      | None => []
      end
  | [] => []
  end.

Definition mathInt (R : N) (ds : list N) : N :=
  fold_left (fun acc d => acc * R + d)%N ds 0%N.

(** [parseInt(s)] with no radix argument: skip leading white space, read
    an optional sign, switch to radix 16 after a [0x]/[0X] prefix, read
    the longest prefix of digits, ignore what follows; [NaN] when there is
    no digit. *)
Definition parseInt (s : jsstring) : JSNum :=
  let s1 := trimStart s in
  let '(sign, s2) :=
    match s1 with
    | c :: r => if (c =? 45)%N then ((-1)%Z, r)
                else if (c =? 43)%N then (1%Z, r) else (1%Z, s1)
    | [] => (1%Z, s1)
    end in
  let '(R, s3) :=
    match s2 with
    | c0 :: cx :: r =>
        if ((c0 =? 48) && ((cx =? 120) || (cx =? 88)))%N
        then (16%N, r) else (10%N, s2)
    | _ => (10%N, s2)
    end in
  match radixDigits R s3 with
  | [] => NaN
  | ds => Int (sign * Z.of_N (mathInt R ds))
  end.

(** [n.toString()] and [`${n}`] for an integer. *)
Definition toString (z : Z) : jsstring :=
  str (NilZero.string_of_int (Z.to_int z)).

(** [arr.slice(0, end)]: [undefined] means the length, [NaN] means 0, a
    negative [end] counts from the end. *)
Definition slice0 {A} (arr : list A) (e : option JSNum) : list A :=
  let len := Z.of_nat (length arr) in
  let final :=
    match e with
    | None => len
    | Some NaN => 0%Z
    | Some (Int k) => if (k <? 0)%Z then Z.max (len + k) 0 else Z.min k len
    end in
  take (Z.to_nat final) arr.

End JS.

(** ** Data shared by the two variants *)

Inductive MessageType := bot | user.

(** [interface ChatMessage].  [id] is a string; bot questions carry no
    [questionIndex]. *)
Record ChatMessage := mkMessage {
  id : jsstring;
  type : MessageType;
  content : jsstring;
  timestamp : Z;
  questionIndex : option nat
}.

(** [{ ...msg, content: v }] *)
Definition withContent (v : jsstring) (msg : ChatMessage) : ChatMessage :=
  mkMessage (id msg) (type msg) v (timestamp msg) (questionIndex msg).

(** Calls of [toast.success] / [toast.error], in order. *)
Inductive Toast :=
| toast_success (text : jsstring)
| toast_error (text : jsstring).

Definition isError (t : Toast) : bool :=
  match t with toast_error _ => true | toast_success _ => false end.

(** Pending [setTimeout] callbacks: [initializeChat], [askQuestion(i)] and
    the inner callback of [askQuestion] that posts question [i]. *)
Inductive Timer :=
| TInitializeChat (delay : Z)
| TAskQuestion (delay : Z) (i : nat)
| TPostQuestion (delay : Z) (i : nat).

(** Calls of [console.log], [console.warn] and [console.error]. *)
Inductive Console :=
| console_log (text : jsstring)
| console_warn (text : jsstring)
| console_error (text : jsstring).

#[global] Instance MessageType_eq_dec : EqDecision MessageType.
Proof. solve_decision. Defined.
#[global] Instance ChatMessage_eq_dec : EqDecision ChatMessage.
Proof. solve_decision. Defined.

Definition invalidResponse : Toast :=
  toast_error (JS.str "Please provide a valid response").

(** ** Five-question variant *)
Module V5.

(** [Partial<UserData>]: a field is [None] until its answer is committed. *)
Record UserData := mkUserData {
  name : option jsstring;
  skills : option (list jsstring);
  location : option jsstring;
  yearsExperience : option JS.JSNum;
  jobType : option jsstring
}.

Record MatchProfile := mkProfile {
  p_id : jsstring;
  p_photo : jsstring;
  p_name : jsstring;
  p_title : jsstring;
  p_experience : jsstring;
  p_location : jsstring;
  p_skills : list jsstring
}.

Definition questions : list jsstring :=
  [ JS.str "What's your full name?";
    JS.str "What are your key technical skills? (separate with commas)";
    JS.str "Where are you located? (city, country)";
    JS.str "How many years of professional experience do you have?";
    JS.str "What type of job role are you seeking? (e.g., Full-time, Contract, Remote)" ].

(** The [useState] cells of the component, then the effect logs. *)
Record State := mkState {
  messages : list ChatMessage;
  currentInput : jsstring;
  currentQuestionIndex : nat;
  isTyping : bool;
  userData : UserData;
  isComplete : bool;
  matches : list MatchProfile;
  isLoading : bool;
  editingMessageId : option jsstring;
  editValue : jsstring;
  toasts : list Toast;
  timers : list Timer;
  console : list Console
}.

Definition setMessages (f : list ChatMessage -> list ChatMessage) (s : State) : State :=
  mkState (f (messages s)) (currentInput s) (currentQuestionIndex s) (isTyping s)
    (userData s) (isComplete s) (matches s) (isLoading s) (editingMessageId s)
    (editValue s) (toasts s) (timers s) (console s).
Definition setCurrentInput (v : jsstring) (s : State) : State :=
  mkState (messages s) v (currentQuestionIndex s) (isTyping s)
    (userData s) (isComplete s) (matches s) (isLoading s) (editingMessageId s)
    (editValue s) (toasts s) (timers s) (console s).
Definition setCurrentQuestionIndex (f : nat -> nat) (s : State) : State :=
  mkState (messages s) (currentInput s) (f (currentQuestionIndex s)) (isTyping s)
    (userData s) (isComplete s) (matches s) (isLoading s) (editingMessageId s)
    (editValue s) (toasts s) (timers s) (console s).
Definition setIsTyping (v : bool) (s : State) : State :=
  mkState (messages s) (currentInput s) (currentQuestionIndex s) v
    (userData s) (isComplete s) (matches s) (isLoading s) (editingMessageId s)
    (editValue s) (toasts s) (timers s) (console s).
Definition setUserData (v : UserData) (s : State) : State :=
  mkState (messages s) (currentInput s) (currentQuestionIndex s) (isTyping s)
    v (isComplete s) (matches s) (isLoading s) (editingMessageId s)
    (editValue s) (toasts s) (timers s) (console s).
Definition setIsComplete (v : bool) (s : State) : State :=
  mkState (messages s) (currentInput s) (currentQuestionIndex s) (isTyping s)
    (userData s) v (matches s) (isLoading s) (editingMessageId s)
    (editValue s) (toasts s) (timers s) (console s).
Definition setMatches (v : list MatchProfile) (s : State) : State :=
  mkState (messages s) (currentInput s) (currentQuestionIndex s) (isTyping s)
    (userData s) (isComplete s) v (isLoading s) (editingMessageId s)
    (editValue s) (toasts s) (timers s) (console s).
Definition setIsLoading (v : bool) (s : State) : State :=
  mkState (messages s) (currentInput s) (currentQuestionIndex s) (isTyping s)
    (userData s) (isComplete s) (matches s) v (editingMessageId s)
    (editValue s) (toasts s) (timers s) (console s).
Definition setEditingMessageId (v : option jsstring) (s : State) : State :=
  mkState (messages s) (currentInput s) (currentQuestionIndex s) (isTyping s)
    (userData s) (isComplete s) (matches s) (isLoading s) v
    (editValue s) (toasts s) (timers s) (console s).
Definition setEditValue (v : jsstring) (s : State) : State :=
  mkState (messages s) (currentInput s) (currentQuestionIndex s) (isTyping s)
    (userData s) (isComplete s) (matches s) (isLoading s) (editingMessageId s)
    v (toasts s) (timers s) (console s).
Definition toast (t : Toast) (s : State) : State :=
  mkState (messages s) (currentInput s) (currentQuestionIndex s) (isTyping s)
    (userData s) (isComplete s) (matches s) (isLoading s) (editingMessageId s)
    (editValue s) (toasts s ++ [t]) (timers s) (console s).
Definition setTimeout (t : Timer) (s : State) : State :=
  mkState (messages s) (currentInput s) (currentQuestionIndex s) (isTyping s)
    (userData s) (isComplete s) (matches s) (isLoading s) (editingMessageId s)
    (editValue s) (toasts s) (timers s ++ [t]) (console s).
Definition clearTimeout (k : nat) (s : State) : State :=
  mkState (messages s) (currentInput s) (currentQuestionIndex s) (isTyping s)
    (userData s) (isComplete s) (matches s) (isLoading s) (editingMessageId s)
    (editValue s) (toasts s) (delete k (timers s)) (console s).

Definition emptyUserData : UserData := mkUserData None None None None None.

(** State of the first render. *)
Definition initialState : State :=
  mkState [] [] 0 false emptyUserData false [] false None [] [] [] [].

Definition initializeChat (now : Z) (s : State) : State :=
  let initialMessage :=
    mkMessage (JS.str "1") bot
      (JS.str "Hi! I'm here to help you find the perfect job match. Let's start with a few questions.")
      now None in
  setTimeout (TAskQuestion 1500 0) (setMessages (fun _ => [initialMessage]) s).

Definition startOver (s : State) : State :=
  toast (toast_success (JS.str "Chat restarted!"))
    (setTimeout (TInitializeChat 500)
      (setEditValue [] (setEditingMessageId None (setIsLoading false
        (setMatches [] (setIsComplete false (setUserData emptyUserData
          (setIsTyping false (setCurrentQuestionIndex (fun _ => 0)
            (setCurrentInput [] (setMessages (fun _ => []) s))))))))))).

Definition askQuestion (questionIndex : nat) (s : State) : State :=
  if length questions <=? questionIndex then s
  else setTimeout (TPostQuestion 1000 questionIndex) (setIsTyping true s).

(** The callback scheduled by [askQuestion]. *)
Definition postQuestion (now : Z) (questionIndex : nat) (s : State) : State :=
  let questionMessage :=
    mkMessage (JS.toString now) bot (nth questionIndex questions []) now None in
  setIsTyping false (setMessages (fun prev => prev ++ [questionMessage]) s).

Definition validateResponse (response : jsstring) (questionIndex : nat) : bool :=
  let trimmed := JS.trim response in
  match questionIndex with
  | 0 => 2 <=? length trimmed
  | 1 => 0 <? length trimmed
  | 2 => JS.includesChar 44 trimmed && (3 <=? length trimmed)
  | 3 => let years := JS.parseInt trimmed in
         negb (JS.isNaN years) && JS.geq years 0 && JS.leq years 50
  | 4 => 0 <? length trimmed
  | _ => true
  end.

(** The record [newUserData] built by [processResponse] from the
    [userData] of the current render. *)
Definition newUserData (d : UserData) (response : jsstring) (questionIndex : nat) : UserData :=
  match questionIndex with
  | 0 => mkUserData (Some (JS.trim response)) (skills d) (location d) (yearsExperience d) (jobType d)
  | 1 => mkUserData (name d)
           (Some (filter (fun x => Is_true (JS.truthy x)) (map JS.trim (JS.split 44 response))))
           (location d) (yearsExperience d) (jobType d)
  | 2 => mkUserData (name d) (skills d) (Some (JS.trim response)) (yearsExperience d) (jobType d)
  | 3 => mkUserData (name d) (skills d) (location d) (Some (JS.parseInt (JS.trim response))) (jobType d)
  | 4 => mkUserData (name d) (skills d) (location d) (yearsExperience d) (Some (JS.trim response))
  | _ => d
  end.

(** [processResponse]: stores the new record and returns it. *)
Definition processResponse (snap : State) (response : jsstring) (questionIndex : nat)
    (s : State) : UserData * State :=
  let d := newUserData (userData snap) response questionIndex in
  (d, setUserData d s).

Definition handleEdit (messageId currentContent : jsstring) (s : State) : State :=
  setEditValue currentContent (setEditingMessageId (Some messageId) s).

Definition saveEdit (messageId : jsstring) (questionIndex : option nat) (s : State) : State :=
  if negb (JS.truthy (JS.trim (editValue s))) then toast invalidResponse s
  else if match questionIndex with
          | Some i => negb (validateResponse (editValue s) i)
          | None => false
          end
  then toast invalidResponse s
  else
    let s1 := setMessages (map (fun msg =>
                if decide (id msg = messageId) then withContent (editValue s) msg else msg)) s in
    let s2 := match questionIndex with
              | Some i => snd (processResponse s (editValue s) i s1)
              | None => s1
              end in
    toast (toast_success (JS.str "Response updated!"))
      (setEditValue [] (setEditingMessageId None s2)).

Definition cancelEdit (s : State) : State :=
  setEditValue [] (setEditingMessageId None s).

Definition mockMatches : list MatchProfile :=
  [ mkProfile (JS.str "1")
      (JS.str "https://images.pexels.com/photos/2379004/pexels-photo-2379004.jpeg?auto=compress&cs=tinysrgb&w=150&h=150&fit=crop")
      (JS.str "Sarah Johnson") (JS.str "Senior Frontend Developer") (JS.str "5 years")
      (JS.str "San Francisco, CA") [JS.str "React"; JS.str "TypeScript"; JS.str "Node.js"];
    mkProfile (JS.str "2")
      (JS.str "https://images.pexels.com/photos/1222271/pexels-photo-1222271.jpeg?auto=compress&cs=tinysrgb&w=150&h=150&fit=crop")
      (JS.str "Michael Chen") (JS.str "Full Stack Engineer") (JS.str "7 years")
      (JS.str "New York, NY") [JS.str "Python"; JS.str "React"; JS.str "AWS"];
    mkProfile (JS.str "3")
      (JS.str "https://images.pexels.com/photos/1239291/pexels-photo-1239291.jpeg?auto=compress&cs=tinysrgb&w=150&h=150&fit=crop")
      (JS.str "Emily Rodriguez") (JS.str "UX/UI Designer") (JS.str "4 years")
      (JS.str "Austin, TX") [JS.str "Figma"; JS.str "Design Systems"; JS.str "User Research"] ].

(** [submitUserData]: the simulated call only waits (the wait itself is
    pacing and is not modelled), so nothing in the [try] block throws and
    the [catch] branch is never taken. *)
Definition submitUserData (now : Z) (data : UserData) (s : State) : State :=
  let s1 := setIsLoading true s in
  let s2 := setMatches mockMatches s1 in
  let successMessage :=
    mkMessage (JS.toString now) bot
      (JS.str "Perfect! Based on your profile, I found "
       ++ JS.toString (Z.of_nat (length mockMatches))
       ++ JS.str " potential matches. Here are some professionals who might be great connections for you:")
      now None in
  let s3 := setMessages (fun prev => prev ++ [successMessage]) s2 in
  let s4 := toast (toast_success (JS.str "Profile matches found!")) s3 in
  setIsLoading false s4.

(** [handleSubmit]: [now] is the clock when the answer is posted, [now']
    the clock when the submission settles. *)
Definition handleSubmit (now now' : Z) (s : State) : State :=
  if negb (JS.truthy (JS.trim (currentInput s))) then s
  else if negb (validateResponse (currentInput s) (currentQuestionIndex s))
  then toast invalidResponse s
  else
    let userMessage :=
      mkMessage (JS.toString now) user (currentInput s) now
        (Some (currentQuestionIndex s)) in
    let s1 := setMessages (fun prev => prev ++ [userMessage]) s in
    let '(updatedUserData, s2) :=
      processResponse s (currentInput s) (currentQuestionIndex s) s1 in
    let s3 := setCurrentInput [] s2 in
    if length questions - 1 <=? currentQuestionIndex s then
      submitUserData now' updatedUserData (setIsComplete true s3)
    else
      setTimeout (TAskQuestion 500 (currentQuestionIndex s + 1))
        (setCurrentQuestionIndex (fun prev => prev + 1) s3).

(** *** What the render offers (as in the seven-question variant, without
    option buttons) *)
Inductive Event :=
| TypeAnswer (text : jsstring)
| SubmitForm (now now' : Z)
| ClickEdit (k : nat)
| TypeEdit (text : jsstring)
| ClickSave (k : nat)
| ClickCancel
| ClickStartOver
| Fire (k : nat) (now : Z).

Definition editing (msg : ChatMessage) (s : State) : bool :=
  bool_decide (editingMessageId s = Some (id msg)).

Definition dispatch (e : Event) (s : State) : State :=
  match e with
  | TypeAnswer text =>
      if negb (isComplete s) && negb (isTyping s) then setCurrentInput text s else s
  | SubmitForm now now' =>
      if negb (isComplete s) && negb (isTyping s)
         && JS.truthy (JS.trim (currentInput s))
      then handleSubmit now now' s else s
  | ClickEdit k =>
      match messages s !! k with
      | Some msg =>
          if negb (editing msg s) && bool_decide (type msg = user) && negb (isComplete s)
          then handleEdit (id msg) (content msg) s else s
      | None => s
      end
  | TypeEdit text =>
      if existsb (fun msg => editing msg s) (messages s) then setEditValue text s else s
  | ClickSave k =>
      match messages s !! k with
      | Some msg => if editing msg s then saveEdit (id msg) (questionIndex msg) s else s
      | None => s
      end
  | ClickCancel =>
      if existsb (fun msg => editing msg s) (messages s) then cancelEdit s else s
  | ClickStartOver => startOver s
  | Fire k now =>
      match timers s !! k with
      | Some (TInitializeChat _) => initializeChat now (clearTimeout k s)
      | Some (TAskQuestion _ i) => askQuestion i (clearTimeout k s)
      | Some (TPostQuestion _ i) => postQuestion now i (clearTimeout k s)
      | None => s
      end
  end.

Definition mounted (now : Z) : State := initializeChat now initialState.

Definition run (es : list Event) (s : State) : State :=
  fold_left (fun st e => dispatch e st) es s.

End V5.

(** ** Seven-question variant *)
Module V7.

Record UserData := mkUserData {
  name : option jsstring;
  jobRole : option jsstring;
  skills : option (list jsstring);
  jobLevel : option JS.JSNum;
  certificationLevel : option jsstring;
  proficiencyLevel : option jsstring;
  profileCount : option JS.JSNum
}.

Record MatchProfile := mkProfile {
  p_id : jsstring;
  p_name : jsstring;
  p_email : jsstring;
  p_experience : jsstring;
  p_img : jsstring;
  p_proficiency : jsstring;
  p_jobLevel : Z;
  p_skills : list jsstring
}.

Definition questions : list jsstring :=
  [ JS.str "What is your name?";
    JS.str "What is your current job role?";
    JS.str "What are your key skills? (Please list them separated by commas)";
    JS.str "Select your job level (1-9):";
    JS.str "Select your certification level:";
    JS.str "Select your proficiency level:";
    JS.str "Select profile count (1-5):" ].

Definition certificationOptions : list jsstring :=
  [JS.str "None"; JS.str "Beginner"; JS.str "Intermediate"; JS.str "Professional"].
Definition proficiencyOptions : list jsstring :=
  [JS.str "Beginner"; JS.str "Intermediate"; JS.str "Professional"].

(** What [response.json()] can hand back.  The component reads two things
    off the value: [value.length], inside the confirmation text and, in
    the render, in the test [value.length > 0] that guards [value.map].
    - [JArray l]: an array, its elements taken at the declared type
      [MatchProfile];
    - [JNull]: [null], on which the property access throws;
    - [JOther text positive]: any other JSON value (an object, a string,
      a number, a boolean), given by the text that its [length] yields in
      the template literal ([undefined] for a number, a boolean or an
      object without that key, the decimal length for a string) and by
      whether [length > 0] holds; such a value has no [map]. *)
Inductive Json :=
| JArray (l : list MatchProfile)
| JNull
| JOther (lengthText : jsstring) (lengthPositive : bool).

(** Outcome of [fetch(BACKEND_URL, ...)]: rejection, or a response with
    its status and body ([None]: the body is not JSON, so
    [response.json()] rejects). *)
Inductive Fetch :=
| NetworkError
| Response (status : Z) (body : option Json).

(** [response.ok]: the status is in the range 200-299. *)
Definition ok (status : Z) : bool := ((200 <=? status) && (status <=? 299))%Z.

(** [submitProfileData]: [inl data] when it returns, [inr tt] when it
    throws; every throw is logged and rethrown. *)
Definition submitProfileData (f : Fetch) : (Json + unit) * list Console :=
  let thrown := (inr tt, [console_error (JS.str "Error submitting profile data:")]) in
  match f with
  | NetworkError => thrown
  | Response status body =>
      if negb (ok status) then thrown
      else match body with
           | None => thrown
           | Some data => (inl data, [])
           end
  end.

Record State := mkState {
  messages : list ChatMessage;
  currentInput : jsstring;
  currentQuestionIndex : nat;
  isTyping : bool;
  userData : UserData;
  isComplete : bool;
  matches : Json;
  isLoading : bool;
  editingMessageId : option jsstring;
  editValue : jsstring;
  showOptions : bool;
  toasts : list Toast;
  timers : list Timer;
  console : list Console;
  requests : list UserData
}.

Definition setMessages (f : list ChatMessage -> list ChatMessage) (s : State) : State :=
  mkState (f (messages s)) (currentInput s) (currentQuestionIndex s) (isTyping s)
    (userData s) (isComplete s) (matches s) (isLoading s) (editingMessageId s)
    (editValue s) (showOptions s) (toasts s) (timers s) (console s) (requests s).
Definition setCurrentInput (v : jsstring) (s : State) : State :=
  mkState (messages s) v (currentQuestionIndex s) (isTyping s)
    (userData s) (isComplete s) (matches s) (isLoading s) (editingMessageId s)
    (editValue s) (showOptions s) (toasts s) (timers s) (console s) (requests s).
Definition setCurrentQuestionIndex (f : nat -> nat) (s : State) : State :=
  mkState (messages s) (currentInput s) (f (currentQuestionIndex s)) (isTyping s)
    (userData s) (isComplete s) (matches s) (isLoading s) (editingMessageId s)
    (editValue s) (showOptions s) (toasts s) (timers s) (console s) (requests s).
Definition setIsTyping (v : bool) (s : State) : State :=
  mkState (messages s) (currentInput s) (currentQuestionIndex s) v
    (userData s) (isComplete s) (matches s) (isLoading s) (editingMessageId s)
    (editValue s) (showOptions s) (toasts s) (timers s) (console s) (requests s).
Definition setUserData (v : UserData) (s : State) : State :=
  mkState (messages s) (currentInput s) (currentQuestionIndex s) (isTyping s)
    v (isComplete s) (matches s) (isLoading s) (editingMessageId s)
    (editValue s) (showOptions s) (toasts s) (timers s) (console s) (requests s).
Definition setIsComplete (v : bool) (s : State) : State :=
  mkState (messages s) (currentInput s) (currentQuestionIndex s) (isTyping s)
    (userData s) v (matches s) (isLoading s) (editingMessageId s)
    (editValue s) (showOptions s) (toasts s) (timers s) (console s) (requests s).
Definition setMatches (v : Json) (s : State) : State :=
  mkState (messages s) (currentInput s) (currentQuestionIndex s) (isTyping s)
    (userData s) (isComplete s) v (isLoading s) (editingMessageId s)
    (editValue s) (showOptions s) (toasts s) (timers s) (console s) (requests s).
Definition setIsLoading (v : bool) (s : State) : State :=
  mkState (messages s) (currentInput s) (currentQuestionIndex s) (isTyping s)
    (userData s) (isComplete s) (matches s) v (editingMessageId s)
    (editValue s) (showOptions s) (toasts s) (timers s) (console s) (requests s).
Definition setEditingMessageId (v : option jsstring) (s : State) : State :=
  mkState (messages s) (currentInput s) (currentQuestionIndex s) (isTyping s)
    (userData s) (isComplete s) (matches s) (isLoading s) v
    (editValue s) (showOptions s) (toasts s) (timers s) (console s) (requests s).
Definition setEditValue (v : jsstring) (s : State) : State :=
  mkState (messages s) (currentInput s) (currentQuestionIndex s) (isTyping s)
    (userData s) (isComplete s) (matches s) (isLoading s) (editingMessageId s)
    v (showOptions s) (toasts s) (timers s) (console s) (requests s).
Definition setShowOptions (v : bool) (s : State) : State :=
  mkState (messages s) (currentInput s) (currentQuestionIndex s) (isTyping s)
    (userData s) (isComplete s) (matches s) (isLoading s) (editingMessageId s)
    (editValue s) v (toasts s) (timers s) (console s) (requests s).
Definition toast (t : Toast) (s : State) : State :=
  mkState (messages s) (currentInput s) (currentQuestionIndex s) (isTyping s)
    (userData s) (isComplete s) (matches s) (isLoading s) (editingMessageId s)
    (editValue s) (showOptions s) (toasts s ++ [t]) (timers s) (console s) (requests s).
Definition setTimeout (t : Timer) (s : State) : State :=
  mkState (messages s) (currentInput s) (currentQuestionIndex s) (isTyping s)
    (userData s) (isComplete s) (matches s) (isLoading s) (editingMessageId s)
    (editValue s) (showOptions s) (toasts s) (timers s ++ [t]) (console s) (requests s).
Definition clearTimeout (k : nat) (s : State) : State :=
  mkState (messages s) (currentInput s) (currentQuestionIndex s) (isTyping s)
    (userData s) (isComplete s) (matches s) (isLoading s) (editingMessageId s)
    (editValue s) (showOptions s) (toasts s) (delete k (timers s)) (console s) (requests s).
Definition log (l : list Console) (s : State) : State :=
  mkState (messages s) (currentInput s) (currentQuestionIndex s) (isTyping s)
    (userData s) (isComplete s) (matches s) (isLoading s) (editingMessageId s)
    (editValue s) (showOptions s) (toasts s) (timers s) (console s ++ l) (requests s).

(** A [fetch] call is recorded with the record it posts. *)
Definition fetch (body : UserData) (s : State) : State :=
  mkState (messages s) (currentInput s) (currentQuestionIndex s) (isTyping s)
    (userData s) (isComplete s) (matches s) (isLoading s) (editingMessageId s)
    (editValue s) (showOptions s) (toasts s) (timers s) (console s) (requests s ++ [body]).

Definition emptyUserData : UserData :=
  mkUserData None None None None None None None.

Definition initialState : State :=
  mkState [] [] 0 false emptyUserData false (JArray []) false None [] false [] [] [] [].

Definition initializeChat (now : Z) (s : State) : State :=
  let initialMessage :=
    mkMessage (JS.str "1") bot
      (JS.str "Hi! I'm here to help you find the perfect job match. Let's start with a few questions to build your profile.")
      now None in
  setTimeout (TAskQuestion 1500 0) (setMessages (fun _ => [initialMessage]) s).

Definition startOver (s : State) : State :=
  toast (toast_success (JS.str "Chat restarted!"))
    (setTimeout (TInitializeChat 500)
      (setShowOptions false
        (setEditValue [] (setEditingMessageId None (setIsLoading false
          (setMatches (JArray []) (setIsComplete false (setUserData emptyUserData
            (setIsTyping false (setCurrentQuestionIndex (fun _ => 0)
              (setCurrentInput [] (setMessages (fun _ => []) s)))))))))))).

Definition askQuestion (questionIndex : nat) (s : State) : State :=
  if length questions <=? questionIndex then s
  else setTimeout (TPostQuestion 1000 questionIndex) (setIsTyping true s).

Definition postQuestion (now : Z) (questionIndex : nat) (s : State) : State :=
  let questionMessage :=
    mkMessage (JS.toString now) bot (nth questionIndex questions []) now None in
  let s1 := setIsTyping false (setMessages (fun prev => prev ++ [questionMessage]) s) in
  if (questionIndex =? 4) || (questionIndex =? 5)
  then setShowOptions true s1 else setShowOptions false s1.

Definition validateResponse (response : jsstring) (questionIndex : nat) : bool :=
  let trimmed := JS.trim response in
  match questionIndex with
  | 0 => 2 <=? length trimmed
  | 1 => 2 <=? length trimmed
  | 2 => 0 <? length trimmed
  | 3 => let level := JS.parseInt trimmed in
         negb (JS.isNaN level) && JS.geq level 1 && JS.leq level 9
  | 4 => JS.includes certificationOptions trimmed
  | 5 => JS.includes proficiencyOptions trimmed
  | 6 => let count := JS.parseInt trimmed in
         negb (JS.isNaN count) && JS.geq count 1 && JS.leq count 5
  | _ => true
  end.

Definition newUserData (d : UserData) (response : jsstring) (questionIndex : nat) : UserData :=
  match questionIndex with
  | 0 => mkUserData (Some (JS.trim response)) (jobRole d) (skills d) (jobLevel d)
           (certificationLevel d) (proficiencyLevel d) (profileCount d)
  | 1 => mkUserData (name d) (Some (JS.trim response)) (skills d) (jobLevel d)
           (certificationLevel d) (proficiencyLevel d) (profileCount d)
  | 2 => mkUserData (name d) (jobRole d)
           (Some (filter (fun x => Is_true (JS.truthy x)) (map JS.trim (JS.split 44 response))))
           (jobLevel d) (certificationLevel d) (proficiencyLevel d) (profileCount d)
  | 3 => mkUserData (name d) (jobRole d) (skills d) (Some (JS.parseInt (JS.trim response)))
           (certificationLevel d) (proficiencyLevel d) (profileCount d)
  | 4 => mkUserData (name d) (jobRole d) (skills d) (jobLevel d)
           (Some (JS.trim response)) (proficiencyLevel d) (profileCount d)
  | 5 => mkUserData (name d) (jobRole d) (skills d) (jobLevel d)
           (certificationLevel d) (Some (JS.trim response)) (profileCount d)
  | 6 => mkUserData (name d) (jobRole d) (skills d) (jobLevel d)
           (certificationLevel d) (proficiencyLevel d) (Some (JS.parseInt (JS.trim response)))
  | _ => d
  end.

Definition processResponse (snap : State) (response : jsstring) (questionIndex : nat)
    (s : State) : UserData * State :=
  let d := newUserData (userData snap) response questionIndex in
  (d, setUserData d s).

Definition handleOptionSelect (option : jsstring) (s : State) : State :=
  setShowOptions false (setCurrentInput option s).

Definition handleEdit (messageId currentContent : jsstring) (s : State) : State :=
  setEditValue currentContent (setEditingMessageId (Some messageId) s).

Definition saveEdit (messageId : jsstring) (questionIndex : option nat) (s : State) : State :=
  if negb (JS.truthy (JS.trim (editValue s))) then toast invalidResponse s
  else if match questionIndex with
          | Some i => negb (validateResponse (editValue s) i)
          | None => false
          end
  then toast invalidResponse s
  else
    let s1 := setMessages (map (fun msg =>
                if decide (id msg = messageId) then withContent (editValue s) msg else msg)) s in
    let s2 := match questionIndex with
              | Some i => snd (processResponse s (editValue s) i s1)
              | None => s1
              end in
    toast (toast_success (JS.str "Response updated!"))
      (setEditValue [] (setEditingMessageId None s2)).

Definition cancelEdit (s : State) : State :=
  setEditValue [] (setEditingMessageId None s).

Definition mockSkillsPool : list (list jsstring) :=
  [ [JS.str "React"; JS.str "JavaScript"; JS.str "TypeScript"];
    [JS.str "Python"; JS.str "Django"; JS.str "PostgreSQL"];
    [JS.str "Node.js"; JS.str "Express"; JS.str "MongoDB"];
    [JS.str "Java"; JS.str "Spring Boot"; JS.str "MySQL"];
    [JS.str "Vue.js"; JS.str "Nuxt.js"; JS.str "CSS"];
    [JS.str "Angular"; JS.str "RxJS"; JS.str "NgRx"];
    [JS.str "PHP"; JS.str "Laravel"; JS.str "Redis"];
    [JS.str "Go"; JS.str "Docker"; JS.str "Kubernetes"] ].

(** The five built-in sample profiles of the fallback branch. *)
Definition mockProfiles : list MatchProfile :=
  [ mkProfile (JS.str "1") (JS.str "Sarah Johnson") (JS.str "sarah.johnson@example.com")
      (JS.str "5 years")
      (JS.str "https://images.pexels.com/photos/2379004/pexels-photo-2379004.jpeg?auto=compress&cs=tinysrgb&w=150&h=150&fit=crop")
      (JS.str "Professional") 7 (nth 0 mockSkillsPool []);
    mkProfile (JS.str "2") (JS.str "Michael Chen") (JS.str "michael.chen@example.com")
      (JS.str "7 years")
      (JS.str "https://images.pexels.com/photos/1222271/pexels-photo-1222271.jpeg?auto=compress&cs=tinysrgb&w=150&h=150&fit=crop")
      (JS.str "Professional") 8 (nth 1 mockSkillsPool []);
    mkProfile (JS.str "3") (JS.str "Emily Rodriguez") (JS.str "emily.rodriguez@example.com")
      (JS.str "4 years")
      (JS.str "https://images.pexels.com/photos/1239291/pexels-photo-1239291.jpeg?auto=compress&cs=tinysrgb&w=150&h=150&fit=crop")
      (JS.str "Intermediate") 6 (nth 2 mockSkillsPool []);
    mkProfile (JS.str "4") (JS.str "David Kim") (JS.str "david.kim@example.com")
      (JS.str "6 years")
      (JS.str "https://images.pexels.com/photos/1043471/pexels-photo-1043471.jpeg?auto=compress&cs=tinysrgb&w=150&h=150&fit=crop")
      (JS.str "Professional") 7 (nth 3 mockSkillsPool []);
    mkProfile (JS.str "5") (JS.str "Lisa Wang") (JS.str "lisa.wang@example.com")
      (JS.str "3 years")
      (JS.str "https://images.pexels.com/photos/1181686/pexels-photo-1181686.jpeg?auto=compress&cs=tinysrgb&w=150&h=150&fit=crop")
      (JS.str "Intermediate") 5 (nth 4 mockSkillsPool []) ].

(** Text of the confirmation message, around what
    [${matchedProfiles.length}] yields. *)
Definition successTextOf (lengthText : jsstring) : jsstring :=
  JS.str "Perfect! Based on your profile, I found "
  ++ lengthText
  ++ JS.str " potential matches. Here are professionals who might be great connections for you:".

(** Text of the confirmation message for [n] results. *)
Definition successText (n : nat) : jsstring :=
  successTextOf (JS.toString (Z.of_nat n)).

Definition matchesFound : Toast := toast_success (JS.str "Profile matches found!").
Definition failedToFind : Toast :=
  toast_error (JS.str "Failed to find matches. Please try again.").

(** [submitUserData].  The inner [try] catches what [submitProfileData]
    throws and falls back to the sample list (after a wait that is pacing
    and is not modelled); the outer [try] catches
    the [TypeError] of [matchedProfiles.length] on [null], raised after
    [setMatches] and before the confirmation message is built; [finally]
    clears the loading flag on every path. *)
Definition submitUserData (f : Fetch) (now : Z) (data : UserData) (s : State) : State :=
  let s1 := fetch data (setIsLoading true s) in
  let '(matchedProfiles, s2) :=
    match submitProfileData f with
    | (inl r, l) =>
        (r, log (l ++ [console_log (JS.str "Successfully submitted to backend:")]) s1)
    | (inr _, l) =>
        (JArray (JS.slice0 mockProfiles (profileCount data)),
         log (l ++ [console_warn (JS.str "Backend not available, using mock data:")]) s1)
    end in
  let s3 := setMatches matchedProfiles s2 in
  let s4 :=
    match matchedProfiles with
    | JArray l =>
        let successMessage :=
          mkMessage (JS.toString now) bot (successText (length l)) now None in
        toast matchesFound (setMessages (fun prev => prev ++ [successMessage]) s3)
    | JOther lengthText _ =>
        let successMessage :=
          mkMessage (JS.toString now) bot (successTextOf lengthText) now None in
        toast matchesFound (setMessages (fun prev => prev ++ [successMessage]) s3)
    | JNull =>
        log [console_error (JS.str "Error submitting user data:")]
          (toast failedToFind s3)
    end in
  setIsLoading false s4.

(** [handleSubmit]: [now] is the clock when the answer is posted; [f] and
    [now'] are the outcome of the network call and the clock when the
    submission settles, read only at the last question. *)
Definition handleSubmit (f : Fetch) (now now' : Z) (s : State) : State :=
  if negb (JS.truthy (JS.trim (currentInput s))) then s
  else if negb (validateResponse (currentInput s) (currentQuestionIndex s))
  then toast invalidResponse s
  else
    let userMessage :=
      mkMessage (JS.toString now) user (currentInput s) now
        (Some (currentQuestionIndex s)) in
    let s1 := setMessages (fun prev => prev ++ [userMessage]) s in
    let '(updatedUserData, s2) :=
      processResponse s (currentInput s) (currentQuestionIndex s) s1 in
    let s3 := setShowOptions false (setCurrentInput [] s2) in
    if length questions - 1 <=? currentQuestionIndex s then
      submitUserData f now' updatedUserData (setIsComplete true s3)
    else
      setTimeout (TAskQuestion 500 (currentQuestionIndex s + 1))
        (setCurrentQuestionIndex (fun prev => prev + 1) s3).

(** *** What the render offers

    The handlers above are reached only through the elements the
    component renders: the answer form exists while [isComplete] is
    false (its input is disabled while the bot types, its button also on
    a blank input); the option buttons while [showOptions] holds and the
    conversation is not complete; the edit button on user messages of a
    conversation that is not complete; save and cancel on the message
    being edited; the start-over button always.

    The render itself evaluates [matches.length > 0 && ... matches.map]:
    it throws when [matches] is [null], and when it is a value other than
    an array whose [length] is positive.  The component is then gone: no
    element is rendered, the start-over button included, and the setters
    that pending timers would call no longer act on it. *)
Inductive Event :=
| TypeAnswer (text : jsstring)
| SubmitForm (f : Fetch) (now now' : Z)
| ClickOption (k : nat)
| ClickEdit (k : nat)
| TypeEdit (text : jsstring)
| ClickSave (k : nat)
| ClickCancel
| ClickStartOver
| Fire (k : nat) (now : Z).

Definition isStartOver (e : Event) : bool :=
  match e with ClickStartOver => true | _ => false end.

Definition editing (msg : ChatMessage) (s : State) : bool :=
  bool_decide (editingMessageId s = Some (id msg)).

Definition shownOptions (s : State) : list jsstring :=
  if currentQuestionIndex s =? 4 then certificationOptions else proficiencyOptions.

(** The render of state [s] throws. *)
Definition crashed (s : State) : bool :=
  match matches s with
  | JArray _ => false
  | JNull => true
  | JOther _ lengthPositive => lengthPositive
  end.

Definition dispatch (e : Event) (s : State) : State :=
  if crashed s then s else
  match e with
  | TypeAnswer text =>
      if negb (isComplete s) && negb (isTyping s) then setCurrentInput text s else s
  | SubmitForm f now now' =>
      if negb (isComplete s) && negb (isTyping s)
         && JS.truthy (JS.trim (currentInput s))
      then handleSubmit f now now' s else s
  | ClickOption k =>
      match shownOptions s !! k with
      | Some option =>
          if showOptions s && negb (isComplete s) then handleOptionSelect option s else s
      | None => s
      end
  | ClickEdit k =>
      match messages s !! k with
      | Some msg =>
          if negb (editing msg s) && bool_decide (type msg = user) && negb (isComplete s)
          then handleEdit (id msg) (content msg) s else s
      | None => s
      end
  | TypeEdit text =>
      if existsb (fun msg => editing msg s) (messages s) then setEditValue text s else s
  | ClickSave k =>
      match messages s !! k with
      | Some msg => if editing msg s then saveEdit (id msg) (questionIndex msg) s else s
      | None => s
      end
  | ClickCancel =>
      if existsb (fun msg => editing msg s) (messages s) then cancelEdit s else s
  | ClickStartOver => startOver s
  | Fire k now =>
      match timers s !! k with
      | Some (TInitializeChat _) => initializeChat now (clearTimeout k s)
      | Some (TAskQuestion _ i) => askQuestion i (clearTimeout k s)
      | Some (TPostQuestion _ i) => postQuestion now i (clearTimeout k s)
      | None => s
      end
  end.

(** The component after mounting: the effect hook has run
    [initializeChat]. *)
Definition mounted (now : Z) : State := initializeChat now initialState.

(** A run of the component on a sequence of events. *)
Definition run (es : list Event) (s : State) : State :=
  fold_left (fun st e => dispatch e st) es s.

End V7.

(** ** Vocabulary of the properties *)

(** An input that is empty or made of white space only. *)
Definition blank (input : jsstring) : Prop :=
  Forall (fun c => JS.isWhiteSpace c = true) input.

(** The trimmed input parses, by [parseInt], to an integer of [lo..hi]. *)
Definition parsesWithin (lo hi : Z) (input : jsstring) : Prop :=
  exists z, JS.parseInt (JS.trim input) = JS.Int z /\ (lo <= z <= hi)%Z.

(** The conversation did not move between [s] and [s']: same log, same
    question, same accumulator, same typed input, nothing scheduled. *)
Definition V5_unchanged (s s' : V5.State) : Prop :=
  V5.messages s' = V5.messages s /\
  V5.currentQuestionIndex s' = V5.currentQuestionIndex s /\
  V5.userData s' = V5.userData s /\
  V5.currentInput s' = V5.currentInput s /\
  V5.isComplete s' = V5.isComplete s /\
  V5.timers s' = V5.timers s.

Definition V7_unchanged (s s' : V7.State) : Prop :=
  V7.messages s' = V7.messages s /\
  V7.currentQuestionIndex s' = V7.currentQuestionIndex s /\
  V7.userData s' = V7.userData s /\
  V7.currentInput s' = V7.currentInput s /\
  V7.isComplete s' = V7.isComplete s /\
  V7.timers s' = V7.timers s /\
  V7.requests s' = V7.requests s.

(** The collaborator is unavailable: the call is rejected, or answered
    with a status outside 200-299. *)
Definition unavailable (f : V7.Fetch) : Prop :=
  match f with
  | V7.NetworkError => True
  | V7.Response status _ => ~ (200 <= status <= 299)%Z
  end.

(** Typed value of an accumulator slot. *)
Inductive Value :=
| VString (v : jsstring)
| VList (v : list jsstring)
| VNumber (v : JS.JSNum).

(** Accumulator slot [i]: the field that case [i] of [processResponse]
    writes. *)
Definition V5_slot (d : V5.UserData) (i : nat) : option Value :=
  match i with
  | 0 => VString <$> V5.name d
  | 1 => VList <$> V5.skills d
  | 2 => VString <$> V5.location d
  | 3 => VNumber <$> V5.yearsExperience d
  | 4 => VString <$> V5.jobType d
  | _ => None
  end.

Definition V7_slot (d : V7.UserData) (i : nat) : option Value :=
  match i with
  | 0 => VString <$> V7.name d
  | 1 => VString <$> V7.jobRole d
  | 2 => VList <$> V7.skills d
  | 3 => VNumber <$> V7.jobLevel d
  | 4 => VString <$> V7.certificationLevel d
  | 5 => VString <$> V7.proficiencyLevel d
  | 6 => VNumber <$> V7.profileCount d
  | _ => None
  end.

(** Joining pieces with a separator, the inverse of [JS.split]. *)
Definition join (sep : N) (parts : list jsstring) : jsstring :=
  match parts with
  | [] => []
  | p :: rest => p ++ concat (map (cons sep) rest)
  end.

(** The committed skills as the specification words them: the pieces
    between commas, each trimmed, the empty ones dropped. *)
Definition skillsOf (input : jsstring) : list jsstring :=
  filter (fun part => part <> []) (JS.trim <$> JS.split 44 input).

(** A code unit that is white space or a comma. *)
Definition spaceOrComma (c : N) : Prop := JS.isWhiteSpace c = true \/ c = 44%N.

(** Every value present in the accumulator is one its validator accepts. *)
Definition V7_validData (d : V7.UserData) : Prop :=
  (forall v, V7.name d = Some v -> 2 <= length v) /\
  (forall v, V7.jobRole d = Some v -> 2 <= length v) /\
  (forall l, V7.skills d = Some l -> Forall (fun x => x <> []) l) /\
  (forall x, V7.jobLevel d = Some x -> exists z, x = JS.Int z /\ (1 <= z <= 9)%Z) /\
  (forall v, V7.certificationLevel d = Some v -> v ∈ V7.certificationOptions) /\
  (forall v, V7.proficiencyLevel d = Some v -> v ∈ V7.proficiencyOptions) /\
  (forall x, V7.profileCount d = Some x -> exists z, x = JS.Int z /\ (1 <= z <= 5)%Z).

Definition V5_validData (d : V5.UserData) : Prop :=
  (forall v, V5.name d = Some v -> 2 <= length v) /\
  (forall l, V5.skills d = Some l -> Forall (fun x => x <> []) l) /\
  (forall v, V5.location d = Some v -> 44%N ∈ v /\ 3 <= length v) /\
  (forall x, V5.yearsExperience d = Some x -> exists z, x = JS.Int z /\ (0 <= z <= 50)%Z) /\
  (forall v, V5.jobType d = Some v -> 0 < length v).

(** The first [n] slots of the accumulator are filled. *)
Definition V7_answered (d : V7.UserData) (n : nat) : Prop :=
  forall j, j < n -> is_Some (V7_slot d j).

Definition V5_answered (d : V5.UserData) (n : nat) : Prop :=
  forall j, j < n -> is_Some (V5_slot d j).

(** What every run of the component maintains: the question index stays
    inside the question list, the accumulator holds validated values for
    all questions before the index (for all questions once complete), and
    every record posted to the collaborator was complete and valid. *)
Definition V7_invariant (i : nat) (d : V7.UserData) (complete : bool)
    (posted : list V7.UserData) : Prop :=
  i < length V7.questions /\ V7_validData d /\ V7_answered d i /\
  (complete = true -> V7_answered d (length V7.questions)) /\
  Forall (fun r => V7_validData r /\ V7_answered r (length V7.questions)) posted.

Definition V7_inv (s : V7.State) : Prop :=
  V7_invariant (V7.currentQuestionIndex s) (V7.userData s) (V7.isComplete s) (V7.requests s).

Definition V5_invariant (i : nat) (d : V5.UserData) (complete : bool) : Prop :=
  i < length V5.questions /\ V5_validData d /\ V5_answered d i /\
  (complete = true -> V5_answered d (length V5.questions)).

Definition V5_inv (s : V5.State) : Prop :=
  V5_invariant (V5.currentQuestionIndex s) (V5.userData s) (V5.isComplete s).

(** Events that empty or replace the log: the start-over button and the
    firing of the [initializeChat] timer. *)
Definition V7_resets (e : V7.Event) (s : V7.State) : bool :=
  match e with
  | V7.ClickStartOver => true
  | V7.Fire k _ =>
      match V7.timers s !! k with
      | Some (TInitializeChat _) => true
      | _ => false
      end
  | _ => false
  end.

Definition V5_resets (e : V5.Event) (s : V5.State) : bool :=
  match e with
  | V5.ClickStartOver => true
  | V5.Fire k _ =>
      match V5.timers s !! k with
      | Some (TInitializeChat _) => true
      | _ => false
      end
  | _ => false
  end.

(** Two messages that differ at most in their text. *)
Definition sameButContent (m m' : ChatMessage) : Prop :=
  id m' = id m /\ type m' = type m /\ timestamp m' = timestamp m /\
  questionIndex m' = questionIndex m.

(** An integer literal: an optional sign, then decimal digits and nothing
    else.  [decimalValue] reads the digits, [integerLiteral] gives the
    integer the whole string denotes, when it is one. *)
Definition decimalDigit (c : N) : option N :=
  if ((48 <=? c) && (c <=? 57))%N then Some (c - 48)%N else None.

Fixpoint decimalValue (acc : N) (s : jsstring) : option N :=
  match s with
  | [] => Some acc
  | c :: r =>
      match decimalDigit c with
      | Some d => decimalValue (acc * 10 + d) r
      | None => None
      end
  end.

Definition integerLiteral (s : jsstring) : option Z :=
  match s with
  | [] => None
  | c :: r =>
      if (c =? 45)%N then
        match r with
        | [] => None
        | _ => (fun n => (- Z.of_N n)%Z) <$> decimalValue 0 r
        end
      else if (c =? 43)%N then
        match r with
        | [] => None
        | _ => Z.of_N <$> decimalValue 0 r
        end
      else Z.of_N <$> decimalValue 0 s
  end.

(** The part of [JS.parseInt] that follows the sign. *)
Definition readDigits (sign : Z) (s2 : jsstring) : JS.JSNum :=
  let '(R, s3) :=
    match s2 with
    | c0 :: cx :: r =>
        if ((c0 =? 48) && ((cx =? 120) || (cx =? 88)))%N
        then (16%N, r) else (10%N, s2)
    | _ => (10%N, s2)
    end in
  match JS.radixDigits R s3 with
  | [] => JS.NaN
  | ds => JS.Int (sign * Z.of_N (JS.mathInt R ds))
  end.



(** Reachable sample states: the component is mounted at time 0, the
    first question is posted, then the listed answers are typed and sent,
    each followed by the posting of the next question. *)
Definition V5_ask (t : Z) : list V5.Event := [V5.Fire 0 t; V5.Fire 0 (t + 1000)].
Definition V5_answer (text : string) (t : Z) : list V5.Event :=
  [V5.TypeAnswer (JS.str text); V5.SubmitForm t (t + 2000)] ++ V5_ask (t + 500).
Definition V5_atName : V5.State := V5.run (V5_ask 1500) (V5.mounted 0).
Definition V5_atSkills : V5.State := V5.run (V5_answer "Ana" 5000) V5_atName.
Definition V5_atExperience : V5.State :=
  V5.run (V5_answer "React, Go" 9000 ++ V5_answer "Pune, India" 13000) V5_atSkills.

Definition V7_ask (t : Z) : list V7.Event := [V7.Fire 0 t; V7.Fire 0 (t + 1000)].
Definition V7_answer (text : string) (t : Z) : list V7.Event :=
  [V7.TypeAnswer (JS.str text); V7.SubmitForm V7.NetworkError t (t + 2000)] ++ V7_ask (t + 500).
Definition V7_atName : V7.State := V7.run (V7_ask 1500) (V7.mounted 0).
Definition V7_atSkills : V7.State :=
  V7.run (V7_answer "Ana" 5000 ++ V7_answer "Engineer" 9000) V7_atName.
Definition V7_atJobLevel : V7.State := V7.run (V7_answer "React, Go" 13000) V7_atSkills.
Definition V7_atCertification : V7.State := V7.run (V7_answer "7" 17000) V7_atJobLevel.
Definition V5_editingName : V5.State :=
  V5.run [V5.ClickEdit 2; V5.TypeEdit (JS.str "Bob")] V5_atExperience.

Definition V7_atProfileCount : V7.State :=
  V7.run (V7_answer "None" 21000 ++ V7_answer "Professional" 25000) V7_atCertification.

(** ** Facts about the primitives *)

Example parseInt_examples :
  JS.parseInt (JS.str "7abc") = JS.Int 7 /\
  JS.parseInt (JS.str "0x1F") = JS.Int 31 /\
  JS.parseInt (JS.str " -12.5") = JS.Int (-12) /\
  JS.parseInt (JS.str "abc") = JS.NaN /\
  JS.parseInt (JS.str "") = JS.NaN.
Proof. repeat split; reflexivity. Qed.

Example split_examples :
  JS.split 44 (JS.str "a,,b,") = [JS.str "a"; []; JS.str "b"; []] /\
  JS.split 44 [] = [[]].
Proof. split; reflexivity. Qed.

Example trim_examples :
  JS.trim (JS.str "  a b  ") = JS.str "a b" /\ JS.trim [160%N; 9%N; 8232%N] = [].
Proof. split; reflexivity. Qed.

Example toString_examples :
  JS.toString 1730 = JS.str "1730" /\ JS.toString 0 = JS.str "0" /\
  JS.toString (-5) = JS.str "-5".
Proof. repeat split; reflexivity. Qed.

Example slice0_examples :
  JS.slice0 [1; 2; 3; 4; 5] (Some (JS.Int 2)) = [1; 2] /\
  JS.slice0 [1; 2; 3; 4; 5] (Some (JS.Int (-1))) = [1; 2; 3; 4] /\
  JS.slice0 [1; 2; 3] None = [1; 2; 3] /\
  JS.slice0 [1; 2; 3] (Some JS.NaN) = [].
Proof. repeat split; reflexivity. Qed.

Lemma trimStart_blank (s : jsstring) : blank s -> JS.trimStart s = [].
Proof.
  induction 1 as [|c r Hc _ IH]; simpl; [reflexivity|].
  rewrite Hc. exact IH.
Qed.

Lemma trimStart_nil (s : jsstring) : JS.trimStart s = [] -> blank s.
Proof.
  induction s as [|c r IH]; simpl; intros H; [constructor|].
  destruct (JS.isWhiteSpace c) eqn:Hc; [|discriminate].
  constructor; [exact Hc | exact (IH H)].
Qed.

Lemma blank_trimStart (s : jsstring) : blank (JS.trimStart s) -> blank s.
Proof.
  induction s as [|c r IH]; simpl; intros H; [constructor|].
  destruct (JS.isWhiteSpace c) eqn:Hc; [|exact H].
  constructor; [exact Hc | exact (IH H)].
Qed.

Lemma blank_rev (s : jsstring) : blank (rev s) -> blank s.
Proof.
  unfold blank. rewrite !Forall_forall. intros H c Hc.
  apply H. apply list_elem_of_In, in_rev. rewrite rev_involutive.
  apply list_elem_of_In, Hc.
Qed.

(** [trim] returns the empty string exactly on blank inputs. *)
Lemma trim_nil_iff (s : jsstring) : JS.trim s = [] <-> blank s.
Proof.
  unfold JS.trim, JS.trimEnd. split.
  - intros H. apply (f_equal (@rev N)) in H. rewrite rev_involutive in H.
    simpl in H. apply trimStart_nil, blank_rev, blank_trimStart in H. exact H.
  - intros H. rewrite (trimStart_blank s H). reflexivity.
Qed.

Lemma truthy_false (s : jsstring) : JS.truthy s = false <-> s = [].
Proof. destruct s; simpl; split; congruence. Qed.

Lemma not_truthy_trim (s : jsstring) :
  negb (JS.truthy (JS.trim s)) = true <-> blank s.
Proof.
  rewrite negb_true_iff, truthy_false. apply trim_nil_iff.
Qed.

Lemma truthy_trim (s : jsstring) :
  negb (JS.truthy (JS.trim s)) = false <-> ~ blank s.
Proof.
  rewrite <- not_truthy_trim. destruct (negb _); split; congruence.
Qed.

(** ** Rejection paths of the handlers *)

Lemma V5_handleSubmit_blank now now' s :
  blank (V5.currentInput s) -> V5.handleSubmit now now' s = s.
Proof.
  intros H. unfold V5.handleSubmit.
  apply not_truthy_trim in H. rewrite H. reflexivity.
Qed.

Lemma V7_handleSubmit_blank f now now' s :
  blank (V7.currentInput s) -> V7.handleSubmit f now now' s = s.
Proof.
  intros H. unfold V7.handleSubmit.
  apply not_truthy_trim in H. rewrite H. reflexivity.
Qed.

Lemma V5_handleSubmit_invalid now now' s :
  ~ blank (V5.currentInput s) ->
  V5.validateResponse (V5.currentInput s) (V5.currentQuestionIndex s) = false ->
  V5.handleSubmit now now' s = V5.toast invalidResponse s.
Proof.
  intros Hb Hv. unfold V5.handleSubmit.
  apply truthy_trim in Hb. rewrite Hb, Hv. reflexivity.
Qed.

Lemma V7_handleSubmit_invalid f now now' s :
  ~ blank (V7.currentInput s) ->
  V7.validateResponse (V7.currentInput s) (V7.currentQuestionIndex s) = false ->
  V7.handleSubmit f now now' s = V7.toast invalidResponse s.
Proof.
  intros Hb Hv. unfold V7.handleSubmit.
  apply truthy_trim in Hb. rewrite Hb, Hv. reflexivity.
Qed.

Lemma V5_unchanged_refl s : V5_unchanged s s.
Proof. repeat split. Qed.

Lemma V7_unchanged_refl s : V7_unchanged s s.
Proof. repeat split. Qed.

Lemma V5_unchanged_toast t s : V5_unchanged s (V5.toast t s).
Proof. repeat split. Qed.

Lemma V7_unchanged_toast t s : V7_unchanged s (V7.toast t s).
Proof. repeat split. Qed.

(** C10.  In both variants, submitting an input that is empty or made of
    white space only is a silent no-op: [handleSubmit] returns the state
    it was given, so no message is appended, the question index and the
    accumulator are untouched and no toast (in particular no validation
    error) is raised; the same holds when the submission comes through the
    rendered form. *)
Theorem blank_submit_is_silent_noop :
  (forall now now' s, blank (V5.currentInput s) ->
     V5.handleSubmit now now' s = s /\
     V5.dispatch (V5.SubmitForm now now') s = s) /\
  (forall f now now' s, blank (V7.currentInput s) ->
     V7.handleSubmit f now now' s = s /\
     V7.dispatch (V7.SubmitForm f now now') s = s).
Proof.
  split; intros.
  - split; [now apply V5_handleSubmit_blank|].
    simpl. rewrite V5_handleSubmit_blank by assumption.
    now destruct (_ && _).
  - split; [now apply V7_handleSubmit_blank|].
    unfold V7.dispatch. destruct (V7.crashed s); [reflexivity|].
    rewrite V7_handleSubmit_blank by assumption.
    now destruct (_ && _).
Qed.

Lemma blank_submit_is_silent_noop_witness :
  V5.handleSubmit 5000 7000 (V5.setCurrentInput (JS.str "   ") V5_atName)
    = V5.setCurrentInput (JS.str "   ") V5_atName /\
  V7.handleSubmit V7.NetworkError 5000 7000 (V7.setCurrentInput [] V7_atJobLevel)
    = V7.setCurrentInput [] V7_atJobLevel.
Proof.
  split.
  - apply (proj1 blank_submit_is_silent_noop 5000%Z 7000%Z
             (V5.setCurrentInput (JS.str "   ") V5_atName)).
    apply trim_nil_iff. vm_compute. reflexivity.
  - apply (proj2 blank_submit_is_silent_noop V7.NetworkError 5000%Z 7000%Z
             (V7.setCurrentInput [] V7_atJobLevel)).
    apply trim_nil_iff. vm_compute. reflexivity.
Defined.



(** ** Editing a committed answer *)

Lemma skillsOf_code input :
  filter (fun x => Is_true (JS.truthy x)) (map JS.trim (JS.split 44 input)) = skillsOf input.
Proof.
  unfold skillsOf. apply list_filter_iff. intros [|c r]; simpl; split; try tauto; congruence.
Qed.






(** An accepted answer to one of the questions is never blank. *)
Lemma V5_valid_not_blank v i :
  i < length V5.questions -> V5.validateResponse v i = true -> ~ blank v.
Proof.
  intros Hi Hv Hb. apply trim_nil_iff in Hb.
  unfold V5.validateResponse in Hv. rewrite Hb in Hv.
  do 5 (destruct i as [|i]; [vm_compute in Hv; discriminate|]).
  simpl in Hi. lia.
Qed.

Lemma V7_valid_not_blank v i :
  i < length V7.questions -> V7.validateResponse v i = true -> ~ blank v.
Proof.
  intros Hi Hv Hb. apply trim_nil_iff in Hb.
  unfold V7.validateResponse in Hv. rewrite Hb in Hv.
  do 7 (destruct i as [|i]; [vm_compute in Hv; discriminate|]).
  simpl in Hi. lia.
Qed.





(** [newUserData] writes slot [i] from the text alone and keeps the other
    slots. *)
Lemma V5_newUserData_slot d v i :
  i < length V5.questions ->
  V5_slot (V5.newUserData d v i) i = V5_slot (V5.newUserData V5.emptyUserData v i) i /\
  is_Some (V5_slot (V5.newUserData d v i) i) /\
  (forall j, j <> i -> V5_slot (V5.newUserData d v i) j = V5_slot d j).
Proof.
  intros Hi.
  do 5 (destruct i as [|i];
        [ split; [reflexivity|]; split; [eexists; reflexivity|];
          intros j Hj; do 6 (destruct j as [|j]; try congruence; try reflexivity) |]).
  simpl in Hi. lia.
Qed.

Lemma V7_newUserData_slot d v i :
  i < length V7.questions ->
  V7_slot (V7.newUserData d v i) i = V7_slot (V7.newUserData V7.emptyUserData v i) i /\
  is_Some (V7_slot (V7.newUserData d v i) i) /\
  (forall j, j <> i -> V7_slot (V7.newUserData d v i) j = V7_slot d j).
Proof.
  intros Hi.
  do 7 (destruct i as [|i];
        [ split; [reflexivity|]; split; [eexists; reflexivity|];
          intros j Hj; do 8 (destruct j as [|j]; try congruence; try reflexivity) |]).
  simpl in Hi. lia.
Qed.




Lemma lookup_map {A B} (f : A -> B) (l : list A) (k : nat) :
  map f l !! k = f <$> l !! k.
Proof.
  revert k. induction l as [|a l IH]; intros [|k]; simpl; auto.
Qed.



(** ** Accepting path of [handleSubmit] *)

Lemma V5_handleSubmit_accept now now' s :
  ~ blank (V5.currentInput s) ->
  V5.validateResponse (V5.currentInput s) (V5.currentQuestionIndex s) = true ->
  V5.handleSubmit now now' s =
  let i := V5.currentQuestionIndex s in
  let d := V5.newUserData (V5.userData s) (V5.currentInput s) i in
  let userMessage := mkMessage (JS.toString now) user (V5.currentInput s) now (Some i) in
  let s3 := V5.setCurrentInput [] (V5.setUserData d
              (V5.setMessages (fun prev => prev ++ [userMessage]) s)) in
  if length V5.questions - 1 <=? i
  then V5.submitUserData now' d (V5.setIsComplete true s3)
  else V5.setTimeout (TAskQuestion 500 (i + 1))
         (V5.setCurrentQuestionIndex (fun prev => prev + 1) s3).
Proof.
  intros Hb Hv. unfold V5.handleSubmit.
  apply truthy_trim in Hb. rewrite Hb, Hv. reflexivity.
Qed.

Lemma V7_handleSubmit_accept f now now' s :
  ~ blank (V7.currentInput s) ->
  V7.validateResponse (V7.currentInput s) (V7.currentQuestionIndex s) = true ->
  V7.handleSubmit f now now' s =
  let i := V7.currentQuestionIndex s in
  let d := V7.newUserData (V7.userData s) (V7.currentInput s) i in
  let userMessage := mkMessage (JS.toString now) user (V7.currentInput s) now (Some i) in
  let s3 := V7.setShowOptions false (V7.setCurrentInput [] (V7.setUserData d
              (V7.setMessages (fun prev => prev ++ [userMessage]) s))) in
  if length V7.questions - 1 <=? i
  then V7.submitUserData f now' d (V7.setIsComplete true s3)
  else V7.setTimeout (TAskQuestion 500 (i + 1))
         (V7.setCurrentQuestionIndex (fun prev => prev + 1) s3).
Proof.
  intros Hb Hv. unfold V7.handleSubmit.
  apply truthy_trim in Hb. rewrite Hb, Hv. reflexivity.
Qed.

(** The submission itself never writes the accumulator. *)
Lemma V5_submitUserData_userData now d s :
  V5.userData (V5.submitUserData now d s) = V5.userData s.
Proof. reflexivity. Qed.

Lemma V7_submitUserData_userData f now d s :
  V7.userData (V7.submitUserData f now d s) = V7.userData s.
Proof.
  unfold V7.submitUserData.
  destruct (V7.submitProfileData f) as [[[l| |t b]|[]] c]; reflexivity.
Qed.

(** An accepted answer is committed by [newUserData], at the last question
    as well. *)
Lemma V5_handleSubmit_commits now now' s :
  ~ blank (V5.currentInput s) ->
  V5.validateResponse (V5.currentInput s) (V5.currentQuestionIndex s) = true ->
  V5.userData (V5.handleSubmit now now' s)
  = V5.newUserData (V5.userData s) (V5.currentInput s) (V5.currentQuestionIndex s).
Proof.
  intros Hb Hv. rewrite V5_handleSubmit_accept by assumption. cbv zeta.
  destruct (_ <=? _); reflexivity.
Qed.

Lemma V7_handleSubmit_commits f now now' s :
  ~ blank (V7.currentInput s) ->
  V7.validateResponse (V7.currentInput s) (V7.currentQuestionIndex s) = true ->
  V7.userData (V7.handleSubmit f now now' s)
  = V7.newUserData (V7.userData s) (V7.currentInput s) (V7.currentQuestionIndex s).
Proof.
  intros Hb Hv. rewrite V7_handleSubmit_accept by assumption. cbv zeta.
  destruct (_ <=? _); [|reflexivity].
  now rewrite V7_submitUserData_userData.
Qed.

(** Before the last question, an accepted answer is appended to the log
    and the next question is scheduled. *)
Lemma V5_handleSubmit_advances now now' s :
  ~ blank (V5.currentInput s) ->
  V5.validateResponse (V5.currentInput s) (V5.currentQuestionIndex s) = true ->
  V5.currentQuestionIndex s < length V5.questions - 1 ->
  let s' := V5.handleSubmit now now' s in
  V5.currentQuestionIndex s' = V5.currentQuestionIndex s + 1 /\
  V5.messages s' = V5.messages s ++
    [mkMessage (JS.toString now) user (V5.currentInput s) now (Some (V5.currentQuestionIndex s))] /\
  V5.timers s' = V5.timers s ++ [TAskQuestion 500 (V5.currentQuestionIndex s + 1)] /\
  V5.toasts s' = V5.toasts s /\ V5.currentInput s' = [].
Proof.
  intros Hb Hv Hi s'. subst s'. rewrite V5_handleSubmit_accept by assumption. cbv zeta.
  destruct (_ <=? _) eqn:E; [apply Nat.leb_le in E; lia|]. repeat split.
Qed.

Lemma V7_handleSubmit_advances f now now' s :
  ~ blank (V7.currentInput s) ->
  V7.validateResponse (V7.currentInput s) (V7.currentQuestionIndex s) = true ->
  V7.currentQuestionIndex s < length V7.questions - 1 ->
  let s' := V7.handleSubmit f now now' s in
  V7.currentQuestionIndex s' = V7.currentQuestionIndex s + 1 /\
  V7.messages s' = V7.messages s ++
    [mkMessage (JS.toString now) user (V7.currentInput s) now (Some (V7.currentQuestionIndex s))] /\
  V7.timers s' = V7.timers s ++ [TAskQuestion 500 (V7.currentQuestionIndex s + 1)] /\
  V7.toasts s' = V7.toasts s /\ V7.currentInput s' = [].
Proof.
  intros Hb Hv Hi s'. subst s'. rewrite V7_handleSubmit_accept by assumption. cbv zeta.
  destruct (_ <=? _) eqn:E; [apply Nat.leb_le in E; lia|]. repeat split.
Qed.

(** Whatever fails validation leaves the conversation where it was, blank
    or not. *)
Lemma V5_handleSubmit_rejects now now' s :
  V5.validateResponse (V5.currentInput s) (V5.currentQuestionIndex s) = false ->
  V5_unchanged s (V5.handleSubmit now now' s).
Proof.
  intros Hv. unfold V5.handleSubmit. rewrite Hv.
  destruct (negb (JS.truthy _)); [apply V5_unchanged_refl | apply V5_unchanged_toast].
Qed.

Lemma V7_handleSubmit_rejects f now now' s :
  V7.validateResponse (V7.currentInput s) (V7.currentQuestionIndex s) = false ->
  V7_unchanged s (V7.handleSubmit f now now' s).
Proof.
  intros Hv. unfold V7.handleSubmit. rewrite Hv.
  destruct (negb (JS.truthy _)); [apply V7_unchanged_refl | apply V7_unchanged_toast].
Qed.

(** ** Numeric slots *)

(** The test [!isNaN(x) && x >= lo && x <= hi]. *)
Lemma range_check (lo hi : Z) (x : JS.JSNum) :
  negb (JS.isNaN x) && JS.geq x lo && JS.leq x hi = true <->
  exists z, x = JS.Int z /\ (lo <= z <= hi)%Z.
Proof.
  destruct x as [|z]; simpl.
  - split; [discriminate | intros (z & H & _); discriminate].
  - rewrite andb_true_iff, Z.leb_le, Z.leb_le. split.
    + intros [H1 H2]. exists z. split; [reflexivity | lia].
    + intros (z' & H & H'). injection H as ->. lia.
Qed.

Lemma V5_experience_valid input :
  V5.validateResponse input 3 = true <-> parsesWithin 0 50 input.
Proof. apply range_check. Qed.

Lemma V7_jobLevel_valid input :
  V7.validateResponse input 3 = true <-> parsesWithin 1 9 input.
Proof. apply range_check. Qed.

Lemma V7_profileCount_valid input :
  V7.validateResponse input 6 = true <-> parsesWithin 1 5 input.
Proof. apply range_check. Qed.

Lemma not_true_false (b : bool) : ~ b = true -> b = false.
Proof. now destruct b. Qed.

(** Numeric slots in terms of [parseInt].  For the experience slot of the
    five-question variant (0..50) and the job-level (1..9) and
    profile-count (1..5) slots of the seven-question variant: an input whose trimmed form does not parse, by
    [parseInt], to an integer of the slot's closed range fails validation,
    and submitting it appends no message, keeps the question index and
    leaves the accumulator as it was; an input that parses to [z] within
    the range passes validation and the accumulator receives [z] itself. *)
Theorem numeric_slots_reject_or_store :
  (forall now now' s, V5.currentQuestionIndex s = 3 ->
     let s' := V5.handleSubmit now now' s in
     (~ parsesWithin 0 50 (V5.currentInput s) ->
        V5.validateResponse (V5.currentInput s) 3 = false /\ V5_unchanged s s') /\
     (forall z, JS.parseInt (JS.trim (V5.currentInput s)) = JS.Int z -> (0 <= z <= 50)%Z ->
        V5.validateResponse (V5.currentInput s) 3 = true /\
        V5.yearsExperience (V5.userData s') = Some (JS.Int z))) /\
  (forall f now now' s, V7.currentQuestionIndex s = 3 ->
     let s' := V7.handleSubmit f now now' s in
     (~ parsesWithin 1 9 (V7.currentInput s) ->
        V7.validateResponse (V7.currentInput s) 3 = false /\ V7_unchanged s s') /\
     (forall z, JS.parseInt (JS.trim (V7.currentInput s)) = JS.Int z -> (1 <= z <= 9)%Z ->
        V7.validateResponse (V7.currentInput s) 3 = true /\
        V7.jobLevel (V7.userData s') = Some (JS.Int z))) /\
  (forall f now now' s, V7.currentQuestionIndex s = 6 ->
     let s' := V7.handleSubmit f now now' s in
     (~ parsesWithin 1 5 (V7.currentInput s) ->
        V7.validateResponse (V7.currentInput s) 6 = false /\ V7_unchanged s s') /\
     (forall z, JS.parseInt (JS.trim (V7.currentInput s)) = JS.Int z -> (1 <= z <= 5)%Z ->
        V7.validateResponse (V7.currentInput s) 6 = true /\
        V7.profileCount (V7.userData s') = Some (JS.Int z))).
Proof.
  split; [|split].
  - intros now now' s Hi s'. subst s'. split.
    + intros Hn. assert (Hv : V5.validateResponse (V5.currentInput s) 3 = false)
        by (apply not_true_false; now rewrite V5_experience_valid).
      split; [exact Hv|]. apply V5_handleSubmit_rejects. now rewrite Hi.
    + intros z Hz Hr.
      assert (Hv : V5.validateResponse (V5.currentInput s) 3 = true)
        by (apply V5_experience_valid; exists z; auto).
      split; [exact Hv|].
      rewrite V5_handleSubmit_commits; rewrite ?Hi; try assumption.
      * simpl. now rewrite Hz.
      * apply (V5_valid_not_blank _ 3); [simpl; lia | exact Hv].
  - intros f now now' s Hi s'. subst s'. split.
    + intros Hn. assert (Hv : V7.validateResponse (V7.currentInput s) 3 = false)
        by (apply not_true_false; now rewrite V7_jobLevel_valid).
      split; [exact Hv|]. apply V7_handleSubmit_rejects. now rewrite Hi.
    + intros z Hz Hr.
      assert (Hv : V7.validateResponse (V7.currentInput s) 3 = true)
        by (apply V7_jobLevel_valid; exists z; auto).
      split; [exact Hv|].
      rewrite V7_handleSubmit_commits; rewrite ?Hi; try assumption.
      * simpl. now rewrite Hz.
      * apply (V7_valid_not_blank _ 3); [simpl; lia | exact Hv].
  - intros f now now' s Hi s'. subst s'. split.
    + intros Hn. assert (Hv : V7.validateResponse (V7.currentInput s) 6 = false)
        by (apply not_true_false; now rewrite V7_profileCount_valid).
      split; [exact Hv|]. apply V7_handleSubmit_rejects. now rewrite Hi.
    + intros z Hz Hr.
      assert (Hv : V7.validateResponse (V7.currentInput s) 6 = true)
        by (apply V7_profileCount_valid; exists z; auto).
      split; [exact Hv|].
      rewrite V7_handleSubmit_commits; rewrite ?Hi; try assumption.
      * simpl. now rewrite Hz.
      * apply (V7_valid_not_blank _ 6); [simpl; lia | exact Hv].
Qed.

Lemma numeric_slots_reject_or_store_witness :
  let s5 := V5.setCurrentInput (JS.str "51") V5_atExperience in
  let s3 := V7.setCurrentInput (JS.str " 7 ") V7_atJobLevel in
  let s6 := V7.setCurrentInput (JS.str "six") V7_atProfileCount in
  V5_unchanged s5 (V5.handleSubmit 17000 19000 s5) /\
  V7.jobLevel (V7.userData (V7.handleSubmit V7.NetworkError 17000 19000 s3))
    = Some (JS.Int 7) /\
  V7_unchanged s6 (V7.handleSubmit V7.NetworkError 29000 31000 s6).
Proof.
  destruct numeric_slots_reject_or_store as (H5 & H3 & H6).
  split; [|split].
  - apply (H5 17000%Z 19000%Z (V5.setCurrentInput (JS.str "51") V5_atExperience));
      [reflexivity|].
    intros (z & Hz & Hr). vm_compute in Hz. injection Hz as <-. lia.
  - apply (H3 V7.NetworkError 17000%Z 19000%Z
             (V7.setCurrentInput (JS.str " 7 ") V7_atJobLevel));
      [reflexivity | vm_compute; reflexivity | lia].
  - apply (H6 V7.NetworkError 29000%Z 31000%Z
             (V7.setCurrentInput (JS.str "six") V7_atProfileCount));
      [reflexivity|].
    intros (z & Hz & Hr). vm_compute in Hz. discriminate.
Defined.

(** ** Numeric slots and integer literals *)

Lemma decimalDigit_facts c d :
  decimalDigit c = Some d ->
  JS.digitValue c = Some d /\ (d < 10)%N /\ JS.isWhiteSpace c = false /\
  c <> 45%N /\ c <> 43%N /\ c <> 120%N /\ c <> 88%N.
Proof.
  unfold decimalDigit. destruct ((48 <=? c) && (c <=? 57))%N eqn:E; [|discriminate].
  intros [= <-]. apply andb_true_iff in E as [E1 E2]. apply N.leb_le in E1, E2.
  assert (Hc : (c = 48 \/ c = 49 \/ c = 50 \/ c = 51 \/ c = 52 \/ c = 53 \/
                c = 54 \/ c = 55 \/ c = 56 \/ c = 57)%N) by lia.
  repeat destruct Hc as [-> | Hc]; try subst c;
    (split; [reflexivity|]; split; [reflexivity|]; split; [reflexivity|];
     repeat split; discriminate).
Qed.

Lemma decimalValue_radix s acc n :
  decimalValue acc s = Some n ->
  fold_left (fun a d => a * 10 + d)%N (JS.radixDigits 10 s) acc = n /\
  length (JS.radixDigits 10 s) = length s.
Proof.
  revert acc. induction s as [|c r IH]; intros acc H; simpl in H.
  - injection H as <-. split; reflexivity.
  - destruct (decimalDigit c) as [d|] eqn:E; [|discriminate].
    apply decimalDigit_facts in E as (Hd & Hlt & _).
    simpl. rewrite Hd. apply N.ltb_lt in Hlt. rewrite Hlt. simpl.
    destruct (IH _ H) as [H1 H2]. split; [exact H1 | now f_equal].
Qed.

Lemma parseInt_readDigits s :
  JS.parseInt s =
  match JS.trimStart s with
  | c :: r => if (c =? 45)%N then readDigits (-1) r
              else if (c =? 43)%N then readDigits 1 r
              else readDigits 1 (c :: r)
  | [] => readDigits 1 []
  end.
Proof.
  unfold JS.parseInt, readDigits. destruct (JS.trimStart s) as [|c r]; [reflexivity|].
  destruct (c =? 45)%N; [reflexivity|]. destruct (c =? 43)%N; reflexivity.
Qed.

Lemma readDigits_decimal sign body n :
  body <> [] -> decimalValue 0 body = Some n ->
  readDigits sign body = JS.Int (sign * Z.of_N n).
Proof.
  intros Hne Hv. destruct (decimalValue_radix _ _ _ Hv) as [Hf Hl].
  assert (Hsel :
    match body with
    | c0 :: cx :: r =>
        if ((c0 =? 48) && ((cx =? 120) || (cx =? 88)))%N
        then (16%N, r) else (10%N, body)
    | _ => (10%N, body)
    end = (10%N, body)).
  { destruct body as [|c0 [|cx r]]; try reflexivity.
    simpl in Hv. destruct (decimalDigit c0) as [d0|]; [|discriminate].
    destruct (decimalDigit cx) as [dx|] eqn:Ex; [|discriminate].
    apply decimalDigit_facts in Ex as (_ & _ & _ & _ & _ & Hx & HX).
    apply N.eqb_neq in Hx, HX. rewrite Hx, HX. now rewrite andb_false_r. }
  unfold readDigits. rewrite Hsel.
  destruct (JS.radixDigits 10 body) as [|d ds] eqn:Er.
  - destruct body; [congruence | discriminate].
  - unfold JS.mathInt. now rewrite Hf.
Qed.

(** On an integer literal [parseInt] returns the integer it denotes. *)
Lemma parseInt_literal s z : integerLiteral s = Some z -> JS.parseInt s = JS.Int z.
Proof.
  destruct s as [|c r]; [discriminate|]. unfold integerLiteral.
  rewrite parseInt_readDigits.
  destruct (c =? 45)%N eqn:E45; [|destruct (c =? 43)%N eqn:E43].
  - apply N.eqb_eq in E45. subst c. simpl JS.trimStart.
    change (JS.isWhiteSpace 45) with false. cbv iota. rewrite N.eqb_refl.
    destruct r as [|c1 r1]; [discriminate|].
    destruct (decimalValue 0 (c1 :: r1)) as [n|] eqn:Ev; [|discriminate].
    intros [= <-]. rewrite (readDigits_decimal _ _ n) by (congruence || exact Ev).
    f_equal; lia.
  - apply N.eqb_eq in E43. subst c. simpl JS.trimStart.
    change (JS.isWhiteSpace 43) with false. cbv iota.
    change (43 =? 45)%N with false. rewrite N.eqb_refl. cbv iota.
    destruct r as [|c1 r1]; [discriminate|].
    destruct (decimalValue 0 (c1 :: r1)) as [n|] eqn:Ev; [|discriminate].
    intros [= <-]. rewrite (readDigits_decimal _ _ n) by (congruence || exact Ev).
    f_equal; lia.
  - destruct (decimalValue 0 (c :: r)) as [n|] eqn:Ev; [|discriminate].
    intros [= <-].
    assert (Hws : JS.isWhiteSpace c = false).
    { simpl in Ev. destruct (decimalDigit c) as [d|] eqn:Ed; [|discriminate].
      now apply decimalDigit_facts in Ed as (_ & _ & H & _). }
    simpl JS.trimStart. rewrite Hws, E45, E43.
    rewrite (readDigits_decimal _ _ n) by (congruence || exact Ev).
    f_equal; lia.
Qed.

(** Answers with a fraction are not integer literals, yet they pass the
    numeric validators and are stored cut to their integer part: [9.9] as
    job level 9, [5.9] as profile count 5, [-0.9] as 0 years. *)
Lemma truncated_numbers_are_accepted :
  integerLiteral (JS.trim (JS.str "9.9")) = None /\
  V7.validateResponse (JS.str "9.9") 3 = true /\
  (let s' := V7.handleSubmit V7.NetworkError 17000 19000
               (V7.setCurrentInput (JS.str "9.9") V7_atJobLevel) in
   V7.currentQuestionIndex s' = 4 /\
   V7.jobLevel (V7.userData s') = Some (JS.Int 9)) /\
  integerLiteral (JS.trim (JS.str "5.9")) = None /\
  V7.validateResponse (JS.str "5.9") 6 = true /\
  integerLiteral (JS.trim (JS.str "-0.9")) = None /\
  V5.validateResponse (JS.str "-0.9") 3 = true /\
  (let s' := V5.handleSubmit 17000 19000
               (V5.setCurrentInput (JS.str "-0.9") V5_atExperience) in
   V5.currentQuestionIndex s' = 4 /\
   V5.yearsExperience (V5.userData s') = Some (JS.Int 0)).
Proof. repeat split; vm_compute; reflexivity. Qed.

(** C1, amended.  At the numeric slots (experience 0..50 in the
    five-question variant; job level 1..9 and profile count 1..5 in the
    seven-question one) the trimmed answer is read by [parseInt], that is
    as its leading integer, whatever follows the digits being ignored.
    The answer is accepted exactly when that integer exists and lies in
    the slot's closed range.  A rejected answer appends no message, keeps
    the question index and leaves the accumulator as it was; an accepted
    answer stores the integer read, as read and never clamped.  Where the
    trimmed answer is an integer literal, the integer read is the one the
    literal denotes, so on such answers acceptance is the plain range
    check. *)
Theorem numeric_slots_read_leading_integer :
  (forall now now' s, V5.currentQuestionIndex s = 3 ->
     let s' := V5.handleSubmit now now' s in
     (V5.validateResponse (V5.currentInput s) 3 = true
        <-> parsesWithin 0 50 (V5.currentInput s)) /\
     (~ parsesWithin 0 50 (V5.currentInput s) -> V5_unchanged s s') /\
     (forall z, JS.parseInt (JS.trim (V5.currentInput s)) = JS.Int z -> (0 <= z <= 50)%Z ->
        V5.yearsExperience (V5.userData s') = Some (JS.Int z)) /\
     (forall z, integerLiteral (JS.trim (V5.currentInput s)) = Some z ->
        (V5.validateResponse (V5.currentInput s) 3 = true <-> (0 <= z <= 50)%Z))) /\
  (forall f now now' s, V7.currentQuestionIndex s = 3 ->
     let s' := V7.handleSubmit f now now' s in
     (V7.validateResponse (V7.currentInput s) 3 = true
        <-> parsesWithin 1 9 (V7.currentInput s)) /\
     (~ parsesWithin 1 9 (V7.currentInput s) -> V7_unchanged s s') /\
     (forall z, JS.parseInt (JS.trim (V7.currentInput s)) = JS.Int z -> (1 <= z <= 9)%Z ->
        V7.jobLevel (V7.userData s') = Some (JS.Int z)) /\
     (forall z, integerLiteral (JS.trim (V7.currentInput s)) = Some z ->
        (V7.validateResponse (V7.currentInput s) 3 = true <-> (1 <= z <= 9)%Z))) /\
  (forall f now now' s, V7.currentQuestionIndex s = 6 ->
     let s' := V7.handleSubmit f now now' s in
     (V7.validateResponse (V7.currentInput s) 6 = true
        <-> parsesWithin 1 5 (V7.currentInput s)) /\
     (~ parsesWithin 1 5 (V7.currentInput s) -> V7_unchanged s s') /\
     (forall z, JS.parseInt (JS.trim (V7.currentInput s)) = JS.Int z -> (1 <= z <= 5)%Z ->
        V7.profileCount (V7.userData s') = Some (JS.Int z)) /\
     (forall z, integerLiteral (JS.trim (V7.currentInput s)) = Some z ->
        (V7.validateResponse (V7.currentInput s) 6 = true <-> (1 <= z <= 5)%Z))) /\
  (forall t z, integerLiteral t = Some z -> JS.parseInt t = JS.Int z).
Proof.
  assert (Hlit : forall lo hi input z,
            integerLiteral (JS.trim input) = Some z ->
            (parsesWithin lo hi input <-> (lo <= z <= hi)%Z)).
  { intros lo hi input z Hz. apply parseInt_literal in Hz. unfold parsesWithin. split.
    - intros (z' & Hz' & Hr). rewrite Hz in Hz'. now injection Hz' as <-.
    - intros Hr. now exists z. }
  destruct numeric_slots_reject_or_store as (H5 & H3 & H6).
  split; [|split; [|split]].
  - intros now now' s Hi s'. subst s'. destruct (H5 now now' s Hi) as [Hrej Hacc].
    split; [apply V5_experience_valid|]. split; [intros Hn; now apply Hrej|].
    split; [intros z Hz Hr; now apply Hacc|].
    intros z Hz. rewrite V5_experience_valid. now apply Hlit.
  - intros f now now' s Hi s'. subst s'. destruct (H3 f now now' s Hi) as [Hrej Hacc].
    split; [apply V7_jobLevel_valid|]. split; [intros Hn; now apply Hrej|].
    split; [intros z Hz Hr; now apply Hacc|].
    intros z Hz. rewrite V7_jobLevel_valid. now apply Hlit.
  - intros f now now' s Hi s'. subst s'. destruct (H6 f now now' s Hi) as [Hrej Hacc].
    split; [apply V7_profileCount_valid|]. split; [intros Hn; now apply Hrej|].
    split; [intros z Hz Hr; now apply Hacc|].
    intros z Hz. rewrite V7_profileCount_valid. now apply Hlit.
  - exact parseInt_literal.
Qed.

Lemma numeric_slots_read_leading_integer_witness :
  let s9 := V7.setCurrentInput (JS.str "9.9") V7_atJobLevel in
  let s5 := V5.setCurrentInput (JS.str "51") V5_atExperience in
  V7.jobLevel (V7.userData (V7.handleSubmit V7.NetworkError 17000 19000 s9))
    = Some (JS.Int 9) /\
  V5_unchanged s5 (V5.handleSubmit 17000 19000 s5) /\
  JS.parseInt (JS.str "-12") = JS.Int (-12).
Proof.
  destruct numeric_slots_read_leading_integer as (H5 & H3 & _ & Hl).
  split; [|split].
  - apply (H3 V7.NetworkError 17000%Z 19000%Z
             (V7.setCurrentInput (JS.str "9.9") V7_atJobLevel));
      [reflexivity | vm_compute; reflexivity | lia].
  - apply (H5 17000%Z 19000%Z (V5.setCurrentInput (JS.str "51") V5_atExperience));
      [reflexivity|].
    intros (z & Hz & Hr). vm_compute in Hz. injection Hz as <-. lia.
  - apply Hl. vm_compute. reflexivity.
Defined.

(** ** Name slot *)

(** In both variants the two-character name [Al] passes validation and
    the conversation moves on to the second question. *)
Lemma Al_is_accepted :
  V5.validateResponse (JS.str "Al") 0 = true /\
  V7.validateResponse (JS.str "Al") 0 = true /\
  V5.currentQuestionIndex
    (V5.handleSubmit 5000 7000 (V5.setCurrentInput (JS.str "Al") V5_atName)) = 1 /\
  V7.currentQuestionIndex
    (V7.handleSubmit V7.NetworkError 5000 7000 (V7.setCurrentInput (JS.str "Al") V7_atName)) = 1.
Proof. repeat split; vm_compute; reflexivity. Qed.

(** C4, amended.  At the name slot of both variants an input is accepted
    exactly when its trimmed form has at least two code units.  Such an
    input (among them [Al] and [Ana]) is appended to the log, stored
    trimmed as the name, and the conversation advances to the second
    question; an input whose trimmed form is shorter (such as [A]) is
    rejected and the conversation stays where it was. *)
Theorem name_slot_min_length :
  (forall now now' s, V5.currentQuestionIndex s = 0 ->
     let input := V5.currentInput s in
     let s' := V5.handleSubmit now now' s in
     (2 <= length (JS.trim input) ->
        V5.validateResponse input 0 = true /\
        V5.currentQuestionIndex s' = 1 /\
        V5.messages s' = V5.messages s ++ [mkMessage (JS.toString now) user input now (Some 0)] /\
        V5.name (V5.userData s') = Some (JS.trim input)) /\
     (length (JS.trim input) < 2 ->
        V5.validateResponse input 0 = false /\ V5_unchanged s s')) /\
  (forall f now now' s, V7.currentQuestionIndex s = 0 ->
     let input := V7.currentInput s in
     let s' := V7.handleSubmit f now now' s in
     (2 <= length (JS.trim input) ->
        V7.validateResponse input 0 = true /\
        V7.currentQuestionIndex s' = 1 /\
        V7.messages s' = V7.messages s ++ [mkMessage (JS.toString now) user input now (Some 0)] /\
        V7.name (V7.userData s') = Some (JS.trim input)) /\
     (length (JS.trim input) < 2 ->
        V7.validateResponse input 0 = false /\ V7_unchanged s s')) /\
  length (JS.trim (JS.str "Al")) = 2 /\ length (JS.trim (JS.str "Ana")) = 3 /\
  length (JS.trim (JS.str "A")) = 1.
Proof.
  split; [|split; [|repeat split]].
  - intros now now' s Hi input s'. subst input s'. split.
    + intros Hl.
      assert (Hv : V5.validateResponse (V5.currentInput s) (V5.currentQuestionIndex s) = true)
        by (rewrite Hi; apply Nat.leb_le, Hl).
      assert (Hb : ~ blank (V5.currentInput s))
        by (apply (V5_valid_not_blank _ 0); [simpl; lia | now rewrite <- Hi]).
      destruct (V5_handleSubmit_advances now now' s Hb Hv) as (H1 & H2 & _).
      { rewrite Hi. simpl. lia. }
      rewrite Hi in Hv, H1, H2. split; [exact Hv|]. split; [exact H1|]. split; [exact H2|].
      rewrite V5_handleSubmit_commits by (rewrite ?Hi; assumption). now rewrite Hi.
    + intros Hl.
      assert (Hv : V5.validateResponse (V5.currentInput s) 0 = false)
        by (apply Nat.leb_gt, Hl).
      split; [exact Hv|]. apply V5_handleSubmit_rejects. now rewrite Hi.
  - intros f now now' s Hi input s'. subst input s'. split.
    + intros Hl.
      assert (Hv : V7.validateResponse (V7.currentInput s) (V7.currentQuestionIndex s) = true)
        by (rewrite Hi; apply Nat.leb_le, Hl).
      assert (Hb : ~ blank (V7.currentInput s))
        by (apply (V7_valid_not_blank _ 0); [simpl; lia | now rewrite <- Hi]).
      destruct (V7_handleSubmit_advances f now now' s Hb Hv) as (H1 & H2 & _).
      { rewrite Hi. simpl. lia. }
      rewrite Hi in Hv, H1, H2. split; [exact Hv|]. split; [exact H1|]. split; [exact H2|].
      rewrite V7_handleSubmit_commits by (rewrite ?Hi; assumption). now rewrite Hi.
    + intros Hl.
      assert (Hv : V7.validateResponse (V7.currentInput s) 0 = false)
        by (apply Nat.leb_gt, Hl).
      split; [exact Hv|]. apply V7_handleSubmit_rejects. now rewrite Hi.
Qed.

Lemma name_slot_min_length_witness :
  let sAl := V7.setCurrentInput (JS.str "Al") V7_atName in
  let sAna := V5.setCurrentInput (JS.str "Ana") V5_atName in
  let sA := V7.setCurrentInput (JS.str "A") V7_atName in
  V7.name (V7.userData (V7.handleSubmit V7.NetworkError 5000 7000 sAl)) = Some (JS.str "Al") /\
  V5.currentQuestionIndex (V5.handleSubmit 5000 7000 sAna) = 1 /\
  V7_unchanged sA (V7.handleSubmit V7.NetworkError 5000 7000 sA).
Proof.
  destruct name_slot_min_length as (H5 & H7 & _).
  split; [|split].
  - apply (H7 V7.NetworkError 5000%Z 7000%Z (V7.setCurrentInput (JS.str "Al") V7_atName));
      [reflexivity | vm_compute; lia].
  - apply (H5 5000%Z 7000%Z (V5.setCurrentInput (JS.str "Ana") V5_atName));
      [reflexivity | vm_compute; lia].
  - apply (H7 V7.NetworkError 5000%Z 7000%Z (V7.setCurrentInput (JS.str "A") V7_atName));
      [reflexivity | vm_compute; lia].
Defined.

(** ** Enumerated slots *)

(** An input with surrounding white space is accepted although it is not
    itself a member of the option set. *)
Lemma padded_option_is_accepted :
  V7.validateResponse (JS.str " Beginner ") 4 = true /\
  (JS.str " Beginner " ∉ V7.certificationOptions) /\
  V7.validateResponse (JS.str " Beginner ") 5 = true /\
  (JS.str " Beginner " ∉ V7.proficiencyOptions).
Proof.
  repeat split; try (vm_compute; reflexivity);
    apply (bool_decide_unpack _); vm_compute; exact I.
Qed.

(** C8, amended.  At the certification-level slot (None, Beginner,
    Intermediate, Professional) and at the proficiency-level slot
    (Beginner, Intermediate, Professional) an input is accepted if and only
    if its trimmed form is equal, code unit by code unit, to a member of
    the slot's option set; the match is case-sensitive, [None] is an
    option of the first slot only, and the value committed is the trimmed
    form. *)
Theorem enumerated_slots_match_trimmed :
  (forall input,
     V7.validateResponse input 4 = true <-> JS.trim input ∈ V7.certificationOptions) /\
  (forall input,
     V7.validateResponse input 5 = true <-> JS.trim input ∈ V7.proficiencyOptions) /\
  V7.certificationOptions
    = [JS.str "None"; JS.str "Beginner"; JS.str "Intermediate"; JS.str "Professional"] /\
  V7.proficiencyOptions = [JS.str "Beginner"; JS.str "Intermediate"; JS.str "Professional"] /\
  V7.validateResponse (JS.str "beginner") 4 = false /\
  V7.validateResponse (JS.str "PROFESSIONAL") 5 = false /\
  V7.validateResponse (JS.str "None") 5 = false /\
  (forall d input,
     V7.certificationLevel (V7.newUserData d input 4) = Some (JS.trim input) /\
     V7.proficiencyLevel (V7.newUserData d input 5) = Some (JS.trim input)).
Proof.
  split; [|split].
  - intros input. apply bool_decide_eq_true.
  - intros input. apply bool_decide_eq_true.
  - repeat split.
Qed.

(** ** Skills slot *)

Lemma split_not_nil sep s : JS.split sep s <> [].
Proof.
  induction s as [|c r IH]; simpl; [discriminate|].
  destruct (c =? sep)%N; [discriminate|].
  destruct (JS.split sep r); [contradiction | discriminate].
Qed.

(** The pieces of [split], joined again, give the input back. *)
Lemma join_split sep s : join sep (JS.split sep s) = s.
Proof.
  induction s as [|c r IH]; simpl; [reflexivity|].
  destruct (c =? sep)%N eqn:E.
  - apply N.eqb_eq in E. subst c. simpl.
    destruct (JS.split sep r) as [|h t] eqn:Hs; [now apply split_not_nil in Hs|].
    simpl in *. now rewrite IH.
  - destruct (JS.split sep r) as [|h t] eqn:Hs; [now apply split_not_nil in Hs|].
    simpl in *. now rewrite IH.
Qed.

(** No piece contains the separator. *)
Lemma split_no_sep sep s : Forall (fun p => sep ∉ p) (JS.split sep s).
Proof.
  induction s as [|c r IH]; simpl.
  - constructor; [apply not_elem_of_nil | constructor].
  - destruct (c =? sep)%N eqn:E.
    + constructor; [apply not_elem_of_nil | exact IH].
    + apply N.eqb_neq in E.
      destruct (JS.split sep r) as [|h t].
      { constructor; [|constructor].
        intros H%list_elem_of_singleton. congruence. }
      apply Forall_cons in IH as [Hh Ht]. constructor; [|exact Ht].
      intros [H|H]%elem_of_cons; [congruence | contradiction].
Qed.

Lemma split_cons sep c s :
  JS.split sep (c :: s) =
  if (c =? sep)%N then [] :: JS.split sep s
  else match JS.split sep s with
       | h :: t => (c :: h) :: t
       | [] => [[c]]
       end.
Proof. reflexivity. Qed.

Lemma join_cons_cons sep c p rest :
  join sep ((c :: p) :: rest) = c :: join sep (p :: rest).
Proof. reflexivity. Qed.

Lemma join_nil_cons sep q rest :
  join sep ([] :: q :: rest) = sep :: join sep (q :: rest).
Proof. reflexivity. Qed.

(** [split] is the only such decomposition. *)
Lemma split_join sep parts :
  parts <> [] -> Forall (fun p => sep ∉ p) parts -> JS.split sep (join sep parts) = parts.
Proof.
  induction parts as [|p rest IH]; [congruence|]. intros _ Hf.
  apply Forall_cons in Hf as [Hp Hrest].
  induction p as [|c p IHp].
  - destruct rest as [|q rest']; [reflexivity|].
    rewrite join_nil_cons, split_cons, N.eqb_refl.
    f_equal. apply IH; [discriminate | exact Hrest].
  - rewrite join_cons_cons, split_cons.
    assert (Hc : (c =? sep)%N = false) by (apply N.eqb_neq; intros ->; apply Hp; left).
    rewrite Hc, IHp; [reflexivity|]. intros H. apply Hp. now right.
Qed.


(** Every committed skill is a non-empty trimmed piece of the input. *)
Lemma skillsOf_elem input x :
  x ∈ skillsOf input <-> x <> [] /\ exists p, p ∈ JS.split 44 input /\ x = JS.trim p.
Proof.
  unfold skillsOf. rewrite list_elem_of_filter, list_elem_of_fmap.
  split.
  - intros (H1 & p & H2 & H3). split; [exact H1|]. exists p. auto.
  - intros (H1 & p & H2 & H3). split; [exact H1|]. exists p. auto.
Qed.

(** C9.  In both variants, for every input accepted at the skills slot
    (any input that is not blank), the list committed to the accumulator
    is the input split on commas, each piece trimmed, empty pieces
    dropped, in order; [React, Go] commits as the list of [React] and
    [Go]. *)
Theorem skills_commit :
  (forall now now' s, V5.currentQuestionIndex s = 1 -> ~ blank (V5.currentInput s) ->
     V5.validateResponse (V5.currentInput s) 1 = true /\
     V5.skills (V5.userData (V5.handleSubmit now now' s)) = Some (skillsOf (V5.currentInput s))) /\
  (forall f now now' s, V7.currentQuestionIndex s = 2 -> ~ blank (V7.currentInput s) ->
     V7.validateResponse (V7.currentInput s) 2 = true /\
     V7.skills (V7.userData (V7.handleSubmit f now now' s)) = Some (skillsOf (V7.currentInput s))) /\
  skillsOf (JS.str "React, Go") = [JS.str "React"; JS.str "Go"].
Proof.
  split; [|split; [|reflexivity]].
  - intros now now' s Hi Hb.
    assert (Hv : V5.validateResponse (V5.currentInput s) 1 = true).
    { unfold V5.validateResponse. apply Nat.ltb_lt.
      destruct (JS.trim (V5.currentInput s)) eqn:E; [|simpl; lia].
      now apply trim_nil_iff in E. }
    split; [exact Hv|].
    rewrite V5_handleSubmit_commits by (rewrite ?Hi; assumption).
    rewrite Hi. simpl. now rewrite skillsOf_code.
  - intros f now now' s Hi Hb.
    assert (Hv : V7.validateResponse (V7.currentInput s) 2 = true).
    { unfold V7.validateResponse. apply Nat.ltb_lt.
      destruct (JS.trim (V7.currentInput s)) eqn:E; [|simpl; lia].
      now apply trim_nil_iff in E. }
    split; [exact Hv|].
    rewrite V7_handleSubmit_commits by (rewrite ?Hi; assumption).
    rewrite Hi. simpl. now rewrite skillsOf_code.
Qed.

Lemma skills_commit_witness :
  V5.skills (V5.userData
    (V5.handleSubmit 9000 11000 (V5.setCurrentInput (JS.str "React, Go") V5_atSkills)))
    = Some [JS.str "React"; JS.str "Go"] /\
  V7.skills (V7.userData
    (V7.handleSubmit V7.NetworkError 13000 15000
       (V7.setCurrentInput (JS.str " ,Rust,, C ,") V7_atSkills)))
    = Some [JS.str "Rust"; JS.str "C"].
Proof.
  destruct skills_commit as (H5 & H7 & _).
  split.
  - apply (H5 9000%Z 11000%Z (V5.setCurrentInput (JS.str "React, Go") V5_atSkills));
      [reflexivity | apply truthy_trim; vm_compute; reflexivity].
  - apply (H7 V7.NetworkError 13000%Z 15000%Z
             (V7.setCurrentInput (JS.str " ,Rust,, C ,") V7_atSkills));
      [reflexivity | apply truthy_trim; vm_compute; reflexivity].
Defined.

(** ** Submission *)



(** So does a 2xx response whose body is not JSON. *)
Lemma submitProfileData_bad_body status :
  fst (V7.submitProfileData (V7.Response status None)) = inr tt.
Proof. simpl. now destruct (negb _). Qed.





Example successText_cites_count :
  V7.successText 2 = JS.str "Perfect! Based on your profile, I found 2 potential matches. Here are professionals who might be great connections for you:".
Proof. reflexivity. Qed.

(** ** Unexpected failure of the submission *)

(** The fields that decide whether the conversation can go on. *)
Lemma V7_saveEdit_frozen messageId questionIndex s :
  let s' := V7.saveEdit messageId questionIndex s in
  V7.isComplete s' = V7.isComplete s /\ V7.requests s' = V7.requests s /\
  V7.currentQuestionIndex s' = V7.currentQuestionIndex s.
Proof.
  unfold V7.saveEdit.
  destruct (negb (JS.truthy _)); [repeat split|].
  destruct questionIndex as [i|]; [destruct (negb (V7.validateResponse _ _))|];
    repeat split.
Qed.

(** After the last answer, a 2xx response carrying [null] makes the
    submission throw: the conversation is then marked complete and no
    longer loading. *)
Lemma failed_submission_is_marked_complete :
  let s' := V7.run [V7.TypeAnswer (JS.str "3");
                    V7.SubmitForm (V7.Response 200 (Some V7.JNull)) 29000 29400]
              V7_atProfileCount in
  V7.isComplete s' = true /\ V7.isLoading s' = false /\
  V7.toasts s' = V7.toasts V7_atProfileCount ++ [V7.failedToFind] /\
  V7.matches s' = V7.JNull /\
  V7.dispatch V7.ClickStartOver s' = s'.
Proof. repeat split; vm_compute; reflexivity. Qed.

Lemma V7_run_crashed es s : V7.crashed s = true -> V7.run es s = s.
Proof.
  intros Hc. induction es as [|e es IH]; [reflexivity|].
  change (V7.run (e :: es) s) with (V7.run es (V7.dispatch e s)).
  unfold V7.dispatch. rewrite Hc. exact IH.
Qed.

(** C3.  What the code does when the submission throws unexpectedly (the
    collaborator answers 2xx with [null], so reading the number of results
    fails): the completion flag was set before the call and the stored
    result was set to [null] before the throw, so the handler ends with
    the error toast raised, no confirmation appended after the user's
    answer, one request issued, the loading flag cleared, the
    conversation marked complete (its answer form hidden), and a state
    whose render throws: from then on no event reaches the component, the
    start-over button included. *)
Theorem unexpected_failure_breaks_the_screen :
  forall status now now' s,
    (200 <= status <= 299)%Z -> V7.currentQuestionIndex s = 6 ->
    V7.validateResponse (V7.currentInput s) 6 = true ->
    let s' := V7.handleSubmit (V7.Response status (Some V7.JNull)) now now' s in
    V7.toasts s' = V7.toasts s ++ [V7.failedToFind] /\
    V7.messages s' = V7.messages s ++
      [mkMessage (JS.toString now) user (V7.currentInput s) now (Some 6)] /\
    V7.isComplete s' = true /\ V7.isLoading s' = false /\
    V7.matches s' = V7.JNull /\
    V7.requests s' = V7.requests s ++ [V7.userData s'] /\
    V7.crashed s' = true /\
    (forall es, V7.run es s' = s').
Proof.
  intros status now now' s Hst Hi Hv s'.
  assert (Hb : ~ blank (V7.currentInput s))
    by (apply (V7_valid_not_blank _ 6); [simpl; lia | exact Hv]).
  assert (Hs : s' =
    V7.submitUserData (V7.Response status (Some V7.JNull)) now'
      (V7.newUserData (V7.userData s) (V7.currentInput s) 6)
      (V7.setIsComplete true (V7.setShowOptions false (V7.setCurrentInput []
        (V7.setUserData (V7.newUserData (V7.userData s) (V7.currentInput s) 6)
          (V7.setMessages (fun prev => prev ++
             [mkMessage (JS.toString now) user (V7.currentInput s) now (Some 6)]) s)))))).
  { subst s'. rewrite V7_handleSubmit_accept by (rewrite ?Hi; assumption).
    rewrite Hi. reflexivity. }
  assert (Hok : V7.ok status = true)
    by (unfold V7.ok; apply andb_true_iff; split; apply Z.leb_le; lia).
  unfold V7.submitUserData, V7.submitProfileData in Hs. rewrite Hok in Hs.
  simpl in Hs.
  assert (Hc : V7.crashed s' = true) by (rewrite Hs; reflexivity).
  split; [rewrite Hs; reflexivity|].
  split; [rewrite Hs; reflexivity|].
  split; [rewrite Hs; reflexivity|].
  split; [rewrite Hs; reflexivity|].
  split; [rewrite Hs; reflexivity|].
  split; [rewrite Hs; reflexivity|].
  split; [exact Hc|].
  intros es. now apply V7_run_crashed.
Qed.

Lemma unexpected_failure_breaks_the_screen_witness :
  let s := V7.setCurrentInput (JS.str "3") V7_atProfileCount in
  let s' := V7.handleSubmit (V7.Response 200 (Some V7.JNull)) 29000 29400 s in
  V7.toasts s' = V7.toasts s ++ [V7.failedToFind] /\
  V7.isComplete s' = true /\ V7.matches s' = V7.JNull /\
  V7.run [V7.ClickStartOver; V7.Fire 0 30000] s' = s'.
Proof.
  destruct (unexpected_failure_breaks_the_screen 200%Z 29000%Z 29400%Z
              (V7.setCurrentInput (JS.str "3") V7_atProfileCount))
    as (H1 & _ & H2 & _ & H3 & _ & _ & H4).
  - lia.
  - reflexivity.
  - vm_compute. reflexivity.
  - split; [exact H1 | split; [exact H2 | split; [exact H3 | apply H4]]].
Defined.


(** ** Distinct ids

    Ids are clock readings, so a log has pairwise distinct ids as long as
    each new message is stamped with a reading not yet used; the edit
    frame above then applies position by position. *)
Lemma V7_handleSubmit_fresh_id f now now' s :
  ~ blank (V7.currentInput s) ->
  V7.validateResponse (V7.currentInput s) (V7.currentQuestionIndex s) = true ->
  V7.currentQuestionIndex s < length V7.questions - 1 ->
  NoDup (id <$> V7.messages s) -> JS.toString now ∉ id <$> V7.messages s ->
  NoDup (id <$> V7.messages (V7.handleSubmit f now now' s)).
Proof.
  intros Hb Hv Hi Hnd Hfresh.
  destruct (V7_handleSubmit_advances f now now' s Hb Hv Hi) as (_ & -> & _).
  rewrite fmap_app. apply NoDup_app. split; [exact Hnd|]. split.
  - intros x Hx [E|E]%elem_of_cons; [|now apply elem_of_nil in E].
    simpl in E. subst x. contradiction.
  - simpl. apply NoDup_singleton.
Qed.

Lemma V7_postQuestion_fresh_id now i s :
  NoDup (id <$> V7.messages s) -> JS.toString now ∉ id <$> V7.messages s ->
  NoDup (id <$> V7.messages (V7.postQuestion now i s)).
Proof.
  intros Hnd Hfresh. unfold V7.postQuestion.
  destruct (_ || _); simpl; rewrite fmap_app; apply NoDup_app;
    (split; [exact Hnd|]; split; [|apply NoDup_singleton]);
    intros x Hx [E|E]%elem_of_cons; try (now apply elem_of_nil in E);
    simpl in E; subst x; contradiction.
Qed.

(** ** More on [trim] *)

Lemma blank_rev_2 (s : jsstring) : blank s -> blank (rev s).
Proof. intros H. apply blank_rev. now rewrite rev_involutive. Qed.

Lemma blank_app (l r : jsstring) : blank l -> blank r -> blank (l ++ r).
Proof. intros Hl Hr. now apply Forall_app. Qed.

Lemma trimStart_app_blank (l s : jsstring) :
  blank l -> JS.trimStart (l ++ s) = JS.trimStart s.
Proof.
  induction 1 as [|c l Hc _ IH]; simpl; [reflexivity|]. now rewrite Hc.
Qed.

Lemma trimStart_idem (s : jsstring) : JS.trimStart (JS.trimStart s) = JS.trimStart s.
Proof.
  induction s as [|c r IH]; simpl; [reflexivity|].
  destruct (JS.isWhiteSpace c) eqn:Hc; [exact IH|]. simpl. now rewrite Hc.
Qed.

Lemma trimStart_app_nonws (l : jsstring) (c : N) (r : jsstring) :
  JS.isWhiteSpace c = false -> JS.trimStart (l ++ c :: r) = JS.trimStart l ++ c :: r.
Proof.
  intros Hc. induction l as [|a l IH]; simpl; [now rewrite Hc|].
  destruct (JS.isWhiteSpace a); [exact IH | reflexivity].
Qed.

Lemma trimStart_app (s r : jsstring) :
  JS.trimStart s <> [] -> JS.trimStart (s ++ r) = JS.trimStart s ++ r.
Proof.
  induction s as [|c s IH]; simpl; [congruence|].
  destruct (JS.isWhiteSpace c); [exact IH | reflexivity].
Qed.

Lemma trimStart_head (s : jsstring) :
  JS.trimStart s = [] \/
  exists c r, JS.trimStart s = c :: r /\ JS.isWhiteSpace c = false.
Proof.
  induction s as [|c s IH]; simpl; [now left|].
  destruct (JS.isWhiteSpace c) eqn:Hc; [exact IH|]. right. eauto.
Qed.

(** [trimStart] keeps a suffix, [trimEnd] a prefix. *)
Lemma trimStart_suffix (s : jsstring) : exists w, s = w ++ JS.trimStart s.
Proof.
  induction s as [|c s [w IH]]; simpl; [now exists []|].
  destruct (JS.isWhiteSpace c); [|now exists []].
  exists (c :: w). simpl. now f_equal.
Qed.

Lemma trimEnd_prefix (s : jsstring) : exists w, s = JS.trimEnd s ++ w.
Proof.
  unfold JS.trimEnd. destruct (trimStart_suffix (rev s)) as [w Hw].
  exists (rev w). rewrite <- rev_app_distr, <- Hw. now rewrite rev_involutive.
Qed.

Lemma trimEnd_cons_nonws (c : N) (r : jsstring) :
  JS.isWhiteSpace c = false -> JS.trimEnd (c :: r) = c :: JS.trimEnd r.
Proof.
  intros Hc. unfold JS.trimEnd. simpl rev.
  rewrite trimStart_app_nonws by exact Hc. now rewrite rev_app_distr.
Qed.

Lemma trimEnd_app_blank (s r : jsstring) :
  blank r -> JS.trimEnd (s ++ r) = JS.trimEnd s.
Proof.
  intros Hr. unfold JS.trimEnd. rewrite rev_app_distr.
  now rewrite trimStart_app_blank by (apply blank_rev_2, Hr).
Qed.

Lemma trimEnd_idem (s : jsstring) : JS.trimEnd (JS.trimEnd s) = JS.trimEnd s.
Proof.
  unfold JS.trimEnd. now rewrite rev_involutive, trimStart_idem.
Qed.

(** A string that starts with a character other than white space keeps
    it under [trim]. *)
Lemma trim_cons_nonws (c : N) (r : jsstring) :
  JS.isWhiteSpace c = false -> JS.trim (c :: r) = c :: JS.trimEnd r.
Proof.
  intros Hc. unfold JS.trim. simpl. rewrite Hc. now apply trimEnd_cons_nonws.
Qed.

Lemma trim_idem (s : jsstring) : JS.trim (JS.trim s) = JS.trim s.
Proof.
  unfold JS.trim at 2 3.
  destruct (trimStart_head s) as [H | (c & r & H & Hc)]; rewrite H; [reflexivity|].
  rewrite trimEnd_cons_nonws by exact Hc.
  rewrite trim_cons_nonws by exact Hc. now rewrite trimEnd_idem.
Qed.

(** White space around a string does not change what [trim] returns. *)
Lemma trim_pad (l s r : jsstring) :
  blank l -> blank r -> JS.trim (l ++ s ++ r) = JS.trim s.
Proof.
  intros Hl Hr. unfold JS.trim. rewrite trimStart_app_blank by exact Hl.
  destruct (JS.trimStart s) as [|c t] eqn:E.
  - apply trimStart_nil in E.
    rewrite (trimStart_blank (s ++ r)) by (now apply blank_app). reflexivity.
  - rewrite trimStart_app by (rewrite E; discriminate).
    rewrite E. now apply trimEnd_app_blank.
Qed.

Lemma trimStart_elem (s : jsstring) (c : N) : c ∈ JS.trimStart s -> c ∈ s.
Proof.
  destruct (trimStart_suffix s) as [w Hw]. intros H. rewrite Hw.
  apply elem_of_app. now right.
Qed.

Lemma elem_rev (s : jsstring) (c : N) : c ∈ rev s <-> c ∈ s.
Proof. rewrite !list_elem_of_In. symmetry. apply in_rev. Qed.

Lemma trim_elem (s : jsstring) (c : N) : c ∈ JS.trim s -> c ∈ s.
Proof.
  unfold JS.trim, JS.trimEnd. intros H.
  apply trimStart_elem, elem_rev, trimStart_elem, elem_rev, H.
Qed.

(** ** White space around an answer *)

Lemma trim_pad_l (l s : jsstring) : blank l -> JS.trim (l ++ s) = JS.trim s.
Proof.
  intros Hl. rewrite <- (app_nil_r s) at 1. apply trim_pad; [exact Hl | constructor].
Qed.

Lemma trim_pad_r (s r : jsstring) : blank r -> JS.trim (s ++ r) = JS.trim s.
Proof. intros Hr. apply (trim_pad [] s r); [constructor | exact Hr]. Qed.

Lemma blank_no_comma (s : jsstring) : blank s -> 44%N ∉ s.
Proof.
  intros H Hin. unfold blank in H. rewrite Forall_forall in H.
  specialize (H _ Hin). vm_compute in H. discriminate.
Qed.

Lemma split_app_l sep (l s : jsstring) :
  sep ∉ l ->
  exists h t, JS.split sep s = h :: t /\ JS.split sep (l ++ s) = (l ++ h) :: t.
Proof.
  intros Hl. induction l as [|c l IH]; simpl app.
  - destruct (JS.split sep s) as [|h t] eqn:E; [now apply split_not_nil in E|]. eauto.
  - destruct IH as (h & t & E1 & E2); [intros H; apply Hl; now right|].
    exists h, t. split; [exact E1|]. rewrite split_cons, E2.
    assert (Hc : (c =? sep)%N = false) by (apply N.eqb_neq; intros ->; apply Hl; left).
    now rewrite Hc.
Qed.

Lemma split_single sep (p : jsstring) : sep ∉ p -> JS.split sep p = [p].
Proof.
  intros Hp. rewrite <- (split_join sep [p]) at 1.
  - simpl. now rewrite app_nil_r.
  - discriminate.
  - constructor; [exact Hp | constructor].
Qed.

Lemma split_app_r sep (s r : jsstring) :
  sep ∉ r ->
  exists ps p, JS.split sep s = ps ++ [p] /\ JS.split sep (s ++ r) = ps ++ [p ++ r].
Proof.
  intros Hr. induction s as [|c s (ps & p & E1 & E2)]; simpl app.
  - exists [], []. split; [reflexivity|]. now apply split_single.
  - rewrite !split_cons, E1, E2. destruct (c =? sep)%N.
    + exists ([] :: ps), p. split; reflexivity.
    + destruct ps as [|h t]; simpl.
      * exists [], (c :: p). split; reflexivity.
      * exists ((c :: h) :: t), p. split; reflexivity.
Qed.

Lemma map_trim_split_pad (l s r : jsstring) :
  blank l -> blank r ->
  map JS.trim (JS.split 44 (l ++ s ++ r)) = map JS.trim (JS.split 44 s).
Proof.
  intros Hl Hr.
  destruct (split_app_r 44 s r (blank_no_comma r Hr)) as (ps & p & E1 & E2).
  destruct (split_app_l 44 l (s ++ r) (blank_no_comma l Hl)) as (h & t & E3 & E4).
  rewrite E4, E1. rewrite E2 in E3. simpl map. rewrite trim_pad_l by exact Hl.
  change (JS.trim h :: map JS.trim t) with (map JS.trim (h :: t)).
  rewrite <- E3, !map_app. simpl. now rewrite trim_pad_r.
Qed.

(** X1.  In both variants the validator and the value committed to the
    accumulator do not depend on white space before or after the answer,
    at any slot. *)
Theorem surrounding_white_space_is_ignored :
  (forall l r input i d, blank l -> blank r ->
     V7.validateResponse (l ++ input ++ r) i = V7.validateResponse input i /\
     V7.newUserData d (l ++ input ++ r) i = V7.newUserData d input i) /\
  (forall l r input i d, blank l -> blank r ->
     V5.validateResponse (l ++ input ++ r) i = V5.validateResponse input i /\
     V5.newUserData d (l ++ input ++ r) i = V5.newUserData d input i).
Proof.
  split; intros l r input i d Hl Hr.
  - split.
    + unfold V7.validateResponse. now rewrite trim_pad.
    + unfold V7.newUserData.
      now rewrite map_trim_split_pad, trim_pad.
  - split.
    + unfold V5.validateResponse. now rewrite trim_pad.
    + unfold V5.newUserData.
      now rewrite map_trim_split_pad, trim_pad.
Qed.

Lemma surrounding_white_space_is_ignored_witness :
  V7.validateResponse (JS.str "  " ++ JS.str "React, Go" ++ [9%N; 160%N]) 2
    = V7.validateResponse (JS.str "React, Go") 2 /\
  V5.newUserData V5.emptyUserData ([32%N] ++ JS.str "React, Go" ++ [10%N]) 1
    = V5.newUserData V5.emptyUserData (JS.str "React, Go") 1.
Proof.
  split.
  - apply (proj1 surrounding_white_space_is_ignored (JS.str "  ") [9%N; 160%N]
             (JS.str "React, Go") 2 V7.emptyUserData);
      repeat constructor.
  - apply (proj2 surrounding_white_space_is_ignored [32%N] [10%N]
             (JS.str "React, Go") 1 V5.emptyUserData);
      repeat constructor.
Defined.

(** ** Shape of the committed skills *)

Lemma elem_join sep (parts : list jsstring) (p : jsstring) (c : N) :
  p ∈ parts -> c ∈ p -> c ∈ join sep parts.
Proof.
  intros Hp Hc. destruct parts as [|q rest]; [now apply elem_of_nil in Hp|].
  simpl. apply elem_of_app. apply elem_of_cons in Hp as [->|Hp]; [now left|].
  right. induction rest as [|a rest IH]; [now apply elem_of_nil in Hp|].
  simpl. apply elem_of_cons in Hp as [->|Hp].
  - right. apply elem_of_app. now left.
  - right. apply elem_of_app. right. now apply IH.
Qed.

Lemma skillsOf_wellformed input x :
  x ∈ skillsOf input ->
  x <> [] /\ (44%N ∉ x) /\ JS.trim x = x /\ (forall c, c ∈ x -> c ∈ input).
Proof.
  intros (Hne & p & Hp & ->)%skillsOf_elem.
  pose proof (split_no_sep 44 input) as Hsep. rewrite Forall_forall in Hsep.
  split; [exact Hne|]. split; [|split].
  - intros H. apply (Hsep p Hp). now apply trim_elem.
  - apply trim_idem.
  - intros c Hc. rewrite <- (join_split 44 input).
    apply (elem_join 44 _ p); [exact Hp | now apply trim_elem].
Qed.

(** X2.  Every skill committed by [processResponse] (slot 2 of the
    seven-question variant, slot 1 of the five-question one) is non-empty,
    contains no comma, carries no white space at either end, and is made
    of characters of the answer. *)
Theorem committed_skills_wellformed :
  (forall d input l x,
     V7.skills (V7.newUserData d input 2) = Some l -> x ∈ l ->
     x <> [] /\ (44%N ∉ x) /\ JS.trim x = x /\ (forall c, c ∈ x -> c ∈ input)) /\
  (forall d input l x,
     V5.skills (V5.newUserData d input 1) = Some l -> x ∈ l ->
     x <> [] /\ (44%N ∉ x) /\ JS.trim x = x /\ (forall c, c ∈ x -> c ∈ input)).
Proof.
  split; intros d input l x Hl Hx; simpl in Hl; rewrite skillsOf_code in Hl;
    injection Hl as <-; now apply skillsOf_wellformed.
Qed.

Lemma committed_skills_wellformed_witness :
  JS.str "Go" <> [] /\ (44%N ∉ JS.str "Go") /\ JS.trim (JS.str "Go") = JS.str "Go" /\
  (forall c, c ∈ JS.str "Go" -> c ∈ JS.str " React , Go,").
Proof.
  apply (proj1 committed_skills_wellformed V7.emptyUserData (JS.str " React , Go,")
           [JS.str "React"; JS.str "Go"] (JS.str "Go")).
  - vm_compute. reflexivity.
  - right. left.
Defined.

Lemma filter_nil_Forall {A} (P : A -> Prop) `{!forall x, Decision (P x)} (l : list A) :
  filter P l = [] <-> Forall (fun x => ~ P x) l.
Proof.
  induction l as [|a l IH]; [split; [constructor | reflexivity]|].
  rewrite filter_cons, Forall_cons. destruct (decide (P a)) as [Ha|Ha].
  - split; [discriminate | intros [Hn _]; contradiction].
  - rewrite IH. tauto.
Qed.

Lemma split_all_blank (s : jsstring) :
  Forall blank (JS.split 44 s) <-> Forall spaceOrComma s.
Proof.
  induction s as [|c s IH].
  - simpl. split; intros _; repeat constructor.
  - rewrite split_cons, Forall_cons. destruct (c =? 44)%N eqn:E.
    + apply N.eqb_eq in E. rewrite Forall_cons, IH.
      split; [intros [_ H]; split; [now right | exact H] | intros [_ H]; split; [constructor | exact H]].
    + apply N.eqb_neq in E.
      destruct (JS.split 44 s) as [|h t] eqn:Es; [now apply split_not_nil in Es|].
      rewrite <- IH, !Forall_cons. unfold blank at 1. rewrite Forall_cons.
      unfold spaceOrComma. split.
      * intros [[Hc Hh] Ht]. split; [now left | split; assumption].
      * intros [[Hc | Hc] [Hh Ht]]; [|contradiction].
        split; [split|]; assumption.
Qed.

Lemma skillsOf_nil (input : jsstring) :
  skillsOf input = [] <-> Forall spaceOrComma input.
Proof.
  unfold skillsOf. rewrite filter_nil_Forall, Forall_fmap, <- split_all_blank.
  apply Forall_iff. intros p. simpl. rewrite <- trim_nil_iff.
  destruct (JS.trim p) as [|c t]; split.
  - reflexivity.
  - intros _ H. now apply H.
  - intros H. exfalso. apply H. discriminate.
  - discriminate.
Qed.

(** X3.  The skills validator only asks for a non-blank answer, so an
    answer made of commas and white space with at least one comma is
    accepted; the list it commits is empty, and these are the only answers
    that commit an empty list. *)
Theorem skills_may_commit_empty_list :
  (forall d input,
     V7.skills (V7.newUserData d input 2) = Some [] <-> Forall spaceOrComma input) /\
  (forall d input,
     V5.skills (V5.newUserData d input 1) = Some [] <-> Forall spaceOrComma input) /\
  (forall input, Forall spaceOrComma input -> 44%N ∈ input ->
     V7.validateResponse input 2 = true /\ V5.validateResponse input 1 = true).
Proof.
  split; [|split].
  - intros d input. simpl. rewrite skillsOf_code, <- skillsOf_nil.
    split; [now intros [= ->] | now intros ->].
  - intros d input. simpl. rewrite skillsOf_code, <- skillsOf_nil.
    split; [now intros [= ->] | now intros ->].
  - intros input _ Hc.
    assert (Hb : ~ blank input) by (intros Hb; now apply (blank_no_comma input Hb)).
    assert (Hl : 0 < length (JS.trim input)).
    { destruct (JS.trim input) eqn:E; [|simpl; lia].
      exfalso. apply Hb. now apply trim_nil_iff. }
    split; apply Nat.ltb_lt, Hl.
Qed.

Lemma skills_may_commit_empty_list_witness :
  V7.validateResponse (JS.str " , ,") 2 = true /\
  V5.validateResponse (JS.str " , ,") 1 = true.
Proof.
  apply (proj2 (proj2 skills_may_commit_empty_list) (JS.str " , ,")).
  - repeat constructor; (now left) || (now right).
  - right. left.
Defined.

(** ** Text after a number *)

Lemma radixDigits_nil_prefix (R : N) (a w : jsstring) :
  JS.radixDigits R (a ++ w) = [] -> JS.radixDigits R a = [].
Proof.
  destruct a as [|c a]; [reflexivity|]. simpl.
  destruct (JS.digitValue c) as [d|]; [|reflexivity].
  destruct (d <? R)%N; [discriminate | reflexivity].
Qed.

Lemma radixDigits_trimEnd (R : N) (s : jsstring) :
  JS.radixDigits R s = [] -> JS.radixDigits R (JS.trimEnd s) = [].
Proof.
  destruct (trimEnd_prefix s) as [w Hw]. rewrite Hw at 1.
  apply radixDigits_nil_prefix.
Qed.

(** [parseInt] on a decimal digit other than [0] followed by something
    that does not start with a decimal digit. *)
Lemma parseInt_digit (c d : N) (t : jsstring) :
  JS.digitValue c = Some d -> (d < 10)%N -> c <> 48%N -> c <> 45%N -> c <> 43%N ->
  JS.isWhiteSpace c = false -> JS.radixDigits 10 t = [] ->
  JS.parseInt (c :: t) = JS.Int (Z.of_N d).
Proof.
  intros Hd Hlt H48 H45 H43 Hws Ht. unfold JS.parseInt. simpl JS.trimStart.
  rewrite Hws. apply N.eqb_neq in H48, H45, H43. rewrite H45, H43.
  assert (Hr : JS.radixDigits 10 (c :: t) = [d]).
  { simpl. rewrite Hd. apply N.ltb_lt in Hlt. now rewrite Hlt, Ht. }
  destruct t as [|cx r]; [|rewrite H48; simpl andb; cbv iota]; rewrite Hr;
    unfold JS.mathInt; simpl fold_left; f_equal; lia.
Qed.

Lemma parseInt_trim_digit (d : N) (rest : jsstring) :
  (1 <= d <= 9)%N -> JS.radixDigits 10 rest = [] ->
  JS.parseInt (JS.trim ((48 + d)%N :: rest)) = JS.Int (Z.of_N d).
Proof.
  intros Hd Hrest.
  assert (Hc : (d = 1 \/ d = 2 \/ d = 3 \/ d = 4 \/ d = 5 \/ d = 6 \/ d = 7 \/ d = 8 \/ d = 9)%N)
    by lia.
  assert (Hws : JS.isWhiteSpace (48 + d) = false)
    by (repeat destruct Hc as [-> | Hc]; try subst d; reflexivity).
  rewrite trim_cons_nonws by exact Hws.
  apply parseInt_digit; try lia; try exact Hws.
  - repeat destruct Hc as [-> | Hc]; try subst d; reflexivity.
  - now apply radixDigits_trimEnd.
Qed.

(** X4.  At the numeric slots the answer is read by [parseInt], which
    stops at the first character that is not a digit: a digit 1..9
    followed by any text that does not start with a decimal digit (a unit,
    a fraction, a word) is accepted where the digit is in range, and the
    digit alone is what is stored. *)
Theorem numeric_answer_ignores_trailing_text :
  forall (d : N) (rest : jsstring),
    (1 <= d <= 9)%N -> JS.radixDigits 10 rest = [] ->
    let input := (48 + d)%N :: rest in
    V7.validateResponse input 3 = true /\
    (forall a, V7.jobLevel (V7.newUserData a input 3) = Some (JS.Int (Z.of_N d))) /\
    V5.validateResponse input 3 = true /\
    (forall a, V5.yearsExperience (V5.newUserData a input 3) = Some (JS.Int (Z.of_N d))) /\
    (V7.validateResponse input 6 = true <-> (d <= 5)%N) /\
    (forall a, V7.profileCount (V7.newUserData a input 6) = Some (JS.Int (Z.of_N d))).
Proof.
  intros d rest Hd Hrest input. subst input.
  pose proof (parseInt_trim_digit d rest Hd Hrest) as Hp.
  split; [|split; [|split; [|split; [|split]]]].
  - apply V7_jobLevel_valid. exists (Z.of_N d). split; [exact Hp | lia].
  - intros a. simpl. now rewrite Hp.
  - apply V5_experience_valid. exists (Z.of_N d). split; [exact Hp | lia].
  - intros a. simpl. now rewrite Hp.
  - rewrite V7_profileCount_valid. split.
    + intros (z & Hz & Hr). rewrite Hp in Hz. injection Hz as <-. lia.
    + intros H5. exists (Z.of_N d). split; [exact Hp | lia].
  - intros a. simpl. now rewrite Hp.
Qed.

Lemma numeric_answer_ignores_trailing_text_witness :
  V7.validateResponse (JS.str "7.5 or so") 3 = true /\
  (forall a, V7.jobLevel (V7.newUserData a (JS.str "7.5 or so") 3) = Some (JS.Int 7)).
Proof.
  destruct (numeric_answer_ignores_trailing_text 7 (JS.str ".5 or so")) as (H1 & H2 & _).
  - lia.
  - reflexivity.
  - split; [exact H1 | exact H2].
Defined.

(** ** Outcomes of the submission *)






(** X7.  [submitProfileData] throws exactly when the call is rejected,
    the status is outside 200-299, or the body of a 2xx response is not
    JSON; [submitUserData] then takes the fallback, and its result is the
    same whichever of these failures occurred. *)
Theorem failures_are_indistinguishable :
  (forall f, fst (V7.submitProfileData f) = inr tt <->
             unavailable f \/ exists status, f = V7.Response status None) /\
  (forall f now data s, fst (V7.submitProfileData f) = inr tt ->
     V7.submitUserData f now data s = V7.submitUserData V7.NetworkError now data s).
Proof.
  split.
  - intros [|status body]; simpl; [split; [now left | reflexivity]|].
    unfold V7.ok. destruct ((200 <=? status)%Z && (status <=? 299)%Z) eqn:E; simpl.
    + apply andb_true_iff in E as [E1 E2]. apply Z.leb_le in E1, E2.
      destruct body as [j|]; split.
      * discriminate.
      * intros [H | (st & H)]; [lia | discriminate].
      * intros _. right. now exists status.
      * reflexivity.
    + split; [|reflexivity]. intros _. left.
      apply andb_false_iff in E as [E|E]; apply Z.leb_gt in E; lia.
  - intros f now data s H. unfold V7.submitUserData.
    destruct f as [|status body]; [reflexivity|]. simpl in H |- *.
    destruct (V7.ok status); simpl in H |- *; [|reflexivity].
    destruct body; [discriminate | reflexivity].
Qed.

Lemma failures_are_indistinguishable_witness :
  V7.submitUserData (V7.Response 200 None) 31000
    (V7.userData V7_atProfileCount) V7_atProfileCount
  = V7.submitUserData V7.NetworkError 31000
      (V7.userData V7_atProfileCount) V7_atProfileCount.
Proof.
  apply (proj2 failures_are_indistinguishable (V7.Response 200 None)).
  reflexivity.
Defined.

(** ** Completion in the five-question variant *)

(** X8.  In the five-question variant, any non-blank answer to the last
    question completes the conversation: the answer is stored trimmed as
    the job type, the three built-in sample profiles are shown whatever
    was answered, the user's answer and the confirmation citing 3 results
    are appended, the success toast is the only toast, the loading flag is
    cleared, and no further question is scheduled. *)
Theorem five_question_completion :
  forall now now' s,
    V5.currentQuestionIndex s = 4 -> ~ blank (V5.currentInput s) ->
    let s' := V5.handleSubmit now now' s in
    V5.isComplete s' = true /\ V5.isLoading s' = false /\
    V5.matches s' = V5.mockMatches /\ length V5.mockMatches = 3 /\
    V5.jobType (V5.userData s') = Some (JS.trim (V5.currentInput s)) /\
    V5.messages s' = V5.messages s ++
      [mkMessage (JS.toString now) user (V5.currentInput s) now (Some 4);
       mkMessage (JS.toString now') bot
         (JS.str "Perfect! Based on your profile, I found 3 potential matches. Here are some professionals who might be great connections for you:")
         now' None] /\
    V5.toasts s' = V5.toasts s ++ [toast_success (JS.str "Profile matches found!")] /\
    V5.timers s' = V5.timers s /\ V5.currentQuestionIndex s' = 4.
Proof.
  intros now now' s Hi Hb s'. subst s'.
  assert (Hv : V5.validateResponse (V5.currentInput s) (V5.currentQuestionIndex s) = true).
  { rewrite Hi. unfold V5.validateResponse. apply Nat.ltb_lt.
    destruct (JS.trim (V5.currentInput s)) eqn:E; [|simpl; lia].
    now apply trim_nil_iff in E. }
  rewrite V5_handleSubmit_accept by assumption. rewrite Hi. cbv zeta.
  change (length V5.questions - 1 <=? 4) with true. cbv iota.
  unfold V5.submitUserData. simpl. rewrite <- app_assoc. repeat split. exact Hi.
Qed.

Lemma five_question_completion_witness :
  let s := V5.run (V5_answer "12" 17000 ++ [V5.TypeAnswer (JS.str " Remote ")])
             V5_atExperience in
  let s' := V5.handleSubmit 21000 23000 s in
  V5.isComplete s' = true /\ V5.matches s' = V5.mockMatches /\
  V5.jobType (V5.userData s') = Some (JS.str "Remote").
Proof.
  destruct (five_question_completion 21000 23000
              (V5.run (V5_answer "12" 17000 ++ [V5.TypeAnswer (JS.str " Remote ")])
                 V5_atExperience))
    as (H1 & _ & H2 & _ & H3 & _).
  - reflexivity.
  - apply truthy_trim. vm_compute. reflexivity.
  - split; [exact H1 | split; [exact H2|]].
    etransitivity; [exact H3 | vm_compute; reflexivity].
Defined.

(** ** Option buttons *)

(** X9.  While the certification or the proficiency question is current,
    every option the buttons offer passes that question's validator:
    clicking an option and sending it stores exactly that option, appends
    it to the log and moves on to the next question. *)
Theorem option_button_answer_is_accepted :
  forall f now now' s k o,
    V7.currentQuestionIndex s = 4 \/ V7.currentQuestionIndex s = 5 ->
    V7.shownOptions s !! k = Some o ->
    let s1 := V7.handleOptionSelect o s in
    let s2 := V7.handleSubmit f now now' s1 in
    V7.showOptions s1 = false /\
    V7.currentQuestionIndex s2 = V7.currentQuestionIndex s + 1 /\
    V7_slot (V7.userData s2) (V7.currentQuestionIndex s) = Some (VString o) /\
    V7.messages s2 = V7.messages s ++
      [mkMessage (JS.toString now) user o now (Some (V7.currentQuestionIndex s))].
Proof.
  intros f now now' s k o Hi Hk s1 s2.
  assert (Ho : V7.validateResponse o (V7.currentQuestionIndex s) = true /\ JS.trim o = o).
  { unfold V7.shownOptions in Hk. destruct Hi as [Hi|Hi]; rewrite Hi in Hk |- *;
      simpl Nat.eqb in Hk; cbv iota in Hk;
      do 4 (destruct k as [|k];
            [simpl in Hk;
             first [discriminate | injection Hk as <-; split; vm_compute; reflexivity]|]);
      simpl in Hk; discriminate. }
  destruct Ho as [Hv Ht].
  assert (Hlt : V7.currentQuestionIndex s < length V7.questions - 1)
    by (destruct Hi as [-> | ->]; simpl; lia).
  assert (Hb : ~ blank (V7.currentInput s1)).
  { apply (V7_valid_not_blank _ (V7.currentQuestionIndex s)); [simpl in *; lia | exact Hv]. }
  destruct (V7_handleSubmit_advances f now now' s1 Hb Hv Hlt) as (H1 & H2 & _).
  split; [reflexivity|]. split; [exact H1|]. split; [|exact H2].
  subst s2. rewrite V7_handleSubmit_commits by assumption.
  change (V7.currentInput s1) with o. change (V7.currentQuestionIndex s1) with (V7.currentQuestionIndex s).
  change (V7.userData s1) with (V7.userData s).
  destruct Hi as [-> | ->]; simpl; now rewrite Ht.
Qed.

Lemma option_button_answer_is_accepted_witness :
  let s2 := V7.handleSubmit V7.NetworkError 21000 23000
              (V7.handleOptionSelect (JS.str "Intermediate") V7_atCertification) in
  V7.currentQuestionIndex s2 = V7.currentQuestionIndex V7_atCertification + 1 /\
  V7_slot (V7.userData s2) (V7.currentQuestionIndex V7_atCertification)
    = Some (VString (JS.str "Intermediate")).
Proof.
  destruct (option_button_answer_is_accepted V7.NetworkError 21000 23000
              V7_atCertification 2 (JS.str "Intermediate"))
    as (_ & H1 & H2 & _).
  - left. vm_compute. reflexivity.
  - vm_compute. reflexivity.
  - split; [exact H1 | exact H2].
Defined.

(** ** What every run maintains (seven-question variant) *)

Lemma V7_validData_empty : V7_validData V7.emptyUserData.
Proof. repeat split; intros ? [=]. Qed.

Lemma skillsOf_nonempty input : Forall (fun x => x <> []) (skillsOf input).
Proof.
  apply Forall_forall. intros x Hx. now apply skillsOf_elem in Hx as [Hx _].
Qed.

Lemma V7_newUserData_valid d v i :
  V7_validData d -> V7.validateResponse v i = true -> V7_validData (V7.newUserData d v i).
Proof.
  intros (H1 & H2 & H3 & H4 & H5 & H6 & H7) Hv.
  destruct i as [|[|[|[|[|[|[|i]]]]]]];
    (repeat split; simpl; try assumption; intros ? [= <-]).
  - apply Nat.leb_le, Hv.
  - apply Nat.leb_le, Hv.
  - rewrite skillsOf_code. apply skillsOf_nonempty.
  - apply range_check, Hv.
  - apply (bool_decide_eq_true_1 _ Hv).
  - apply (bool_decide_eq_true_1 _ Hv).
  - apply range_check, Hv.
Qed.

Lemma V7_newUserData_keeps d v i j :
  is_Some (V7_slot d j) -> is_Some (V7_slot (V7.newUserData d v i) j).
Proof.
  intros H.
  do 7 (destruct i as [|i];
        [do 7 (destruct j as [|j]; [first [exact H | eexists; reflexivity]|]); exact H|]).
  exact H.
Qed.

Lemma V7_newUserData_answered d v i n :
  V7_answered d n -> V7_answered (V7.newUserData d v i) n.
Proof. intros H j Hj. apply V7_newUserData_keeps, H, Hj. Qed.

Lemma V7_newUserData_answered_next d v i :
  i < length V7.questions -> V7_answered d i -> V7_answered (V7.newUserData d v i) (S i).
Proof.
  intros Hi H j Hj. destruct (decide (j = i)) as [->|Hne].
  - now apply V7_newUserData_slot.
  - apply V7_newUserData_keeps, H. lia.
Qed.

Lemma V7_submitUserData_frame f now data s :
  V7.currentQuestionIndex (V7.submitUserData f now data s) = V7.currentQuestionIndex s /\
  V7.userData (V7.submitUserData f now data s) = V7.userData s /\
  V7.isComplete (V7.submitUserData f now data s) = V7.isComplete s /\
  V7.requests (V7.submitUserData f now data s) = V7.requests s ++ [data].
Proof.
  unfold V7.submitUserData.
  destruct (V7.submitProfileData f) as [[[l| |t b]|[]] c]; repeat split.
Qed.

Lemma V7_handleSubmit_inv f now now' s : V7_inv s -> V7_inv (V7.handleSubmit f now now' s).
Proof.
  intros Hinv. destruct (negb (JS.truthy (JS.trim (V7.currentInput s)))) eqn:Hg.
  { apply not_truthy_trim in Hg. now rewrite V7_handleSubmit_blank. }
  apply truthy_trim in Hg.
  destruct (V7.validateResponse (V7.currentInput s) (V7.currentQuestionIndex s)) eqn:Hv.
  2: { rewrite V7_handleSubmit_invalid by assumption. exact Hinv. }
  rewrite V7_handleSubmit_accept by assumption. cbv zeta.
  destruct Hinv as (Hi & Hd & Ha & Hc & Hr).
  pose proof (V7_newUserData_valid _ _ _ Hd Hv) as Hd'.
  pose proof (V7_newUserData_answered_next (V7.userData s) (V7.currentInput s) _ Hi Ha) as Ha'.
  destruct (_ <=? _) eqn:E.
  - apply Nat.leb_le in E. simpl in E, Hi.
    assert (E6 : V7.currentQuestionIndex s = 6) by lia.
    unfold V7_inv.
    destruct (V7_submitUserData_frame f now'
                (V7.newUserData (V7.userData s) (V7.currentInput s) (V7.currentQuestionIndex s))
                (V7.setIsComplete true (V7.setShowOptions false (V7.setCurrentInput []
                  (V7.setUserData
                     (V7.newUserData (V7.userData s) (V7.currentInput s) (V7.currentQuestionIndex s))
                     (V7.setMessages (fun prev => prev ++
                        [mkMessage (JS.toString now) user (V7.currentInput s) now
                           (Some (V7.currentQuestionIndex s))]) s))))))
      as (-> & -> & -> & ->).
    simpl. rewrite E6 in Ha', Hd' |- *.
    split; [simpl; lia|]. split; [exact Hd'|].
    split; [intros j Hj; apply Ha'; lia|]. split; [intros _; exact Ha'|].
    apply Forall_app. split; [exact Hr|]. constructor; [|constructor].
    split; [exact Hd' | exact Ha'].
  - apply Nat.leb_gt in E. simpl in E.
    unfold V7_inv. simpl. rewrite Nat.add_1_r.
    split; [simpl; lia|]. split; [exact Hd'|]. split; [exact Ha'|].
    split; [|exact Hr]. intros Hcomp. apply V7_newUserData_answered, Hc, Hcomp.
Qed.

Lemma V7_saveEdit_inv messageId questionIndex s :
  V7_inv s -> V7_inv (V7.saveEdit messageId questionIndex s).
Proof.
  intros Hinv. unfold V7.saveEdit.
  destruct (negb (JS.truthy _)); [exact Hinv|].
  destruct questionIndex as [i|]; [|exact Hinv].
  destruct (V7.validateResponse (V7.editValue s) i) eqn:Hv; [|exact Hinv].
  destruct Hinv as (Hi & Hd & Ha & Hc & Hr). unfold V7_inv. simpl.
  split; [exact Hi|]. split; [now apply V7_newUserData_valid|].
  split; [now apply V7_newUserData_answered|].
  split; [|exact Hr]. intros Hcomp. apply V7_newUserData_answered, Hc, Hcomp.
Qed.

Lemma V7_startOver_inv s : V7_inv s -> V7_inv (V7.startOver s).
Proof.
  intros (_ & _ & _ & _ & Hr). unfold V7_inv. simpl.
  split; [vm_compute; lia|]. split; [apply V7_validData_empty|].
  split; [intros j Hj; lia|]. split; [discriminate | exact Hr].
Qed.

Lemma V7_dispatch_inv e s : V7_inv s -> V7_inv (V7.dispatch e s).
Proof.
  intros Hinv. unfold V7.dispatch. destruct (V7.crashed s); [exact Hinv|].
  destruct e as [text|f now now'|k|k|text|k| | |k now]; simpl.
  - destruct (_ && _); exact Hinv.
  - destruct (_ && _); [now apply V7_handleSubmit_inv | exact Hinv].
  - destruct (V7.shownOptions s !! k); [|exact Hinv]. destruct (_ && _); exact Hinv.
  - destruct (V7.messages s !! k); [|exact Hinv]. destruct (_ && _); exact Hinv.
  - destruct (existsb _ _); exact Hinv.
  - destruct (V7.messages s !! k) as [msg|]; [|exact Hinv].
    destruct (V7.editing msg s); [now apply V7_saveEdit_inv | exact Hinv].
  - destruct (existsb _ _); exact Hinv.
  - now apply V7_startOver_inv.
  - destruct (V7.timers s !! k) as [[d|d i|d i]|]; try exact Hinv.
    + unfold V7.askQuestion. destruct (_ <=? _); exact Hinv.
    + unfold V7.postQuestion. destruct (_ || _); exact Hinv.
Qed.

Lemma V7_mounted_inv t : V7_inv (V7.mounted t).
Proof.
  unfold V7_inv. simpl.
  split; [vm_compute; lia|]. split; [apply V7_validData_empty|].
  split; [intros j Hj; lia|]. split; [discriminate | constructor].
Qed.

Lemma V7_run_inv es s : V7_inv s -> V7_inv (V7.run es s).
Proof.
  revert s. induction es as [|e es IH]; intros s H; [exact H|].
  simpl. apply IH. now apply V7_dispatch_inv.
Qed.

(** ** What every run maintains (five-question variant) *)

Lemma V5_validData_empty : V5_validData V5.emptyUserData.
Proof. split; [|split; [|split; [|split]]]; intros ? [=]. Qed.

Lemma includesChar_elem (c : N) (s : jsstring) : JS.includesChar c s = true -> c ∈ s.
Proof.
  unfold JS.includesChar. intros (x & Hx & E)%existsb_exists.
  apply N.eqb_eq in E. subst x. now apply list_elem_of_In.
Qed.

Lemma V5_newUserData_valid d v i :
  V5_validData d -> V5.validateResponse v i = true -> V5_validData (V5.newUserData d v i).
Proof.
  intros (H1 & H2 & H3 & H4 & H5) Hv.
  destruct i as [|[|[|[|[|i]]]]];
    (split; [|split; [|split; [|split]]]); simpl; try assumption; intros ? [= <-].
  - apply Nat.leb_le, Hv.
  - rewrite skillsOf_code. apply skillsOf_nonempty.
  - unfold V5.validateResponse in Hv. apply andb_true_iff in Hv as [Hc Hl].
    split; [now apply includesChar_elem | apply Nat.leb_le, Hl].
  - apply range_check, Hv.
  - apply Nat.ltb_lt, Hv.
Qed.

Lemma V5_newUserData_keeps d v i j :
  is_Some (V5_slot d j) -> is_Some (V5_slot (V5.newUserData d v i) j).
Proof.
  intros H.
  do 5 (destruct i as [|i];
        [do 5 (destruct j as [|j]; [first [exact H | eexists; reflexivity]|]); exact H|]).
  exact H.
Qed.

Lemma V5_newUserData_answered d v i n :
  V5_answered d n -> V5_answered (V5.newUserData d v i) n.
Proof. intros H j Hj. apply V5_newUserData_keeps, H, Hj. Qed.

Lemma V5_newUserData_answered_next d v i :
  i < length V5.questions -> V5_answered d i -> V5_answered (V5.newUserData d v i) (S i).
Proof.
  intros Hi H j Hj. destruct (decide (j = i)) as [->|Hne].
  - now apply V5_newUserData_slot.
  - apply V5_newUserData_keeps, H. lia.
Qed.

Lemma V5_handleSubmit_inv now now' s : V5_inv s -> V5_inv (V5.handleSubmit now now' s).
Proof.
  intros Hinv. destruct (negb (JS.truthy (JS.trim (V5.currentInput s)))) eqn:Hg.
  { apply not_truthy_trim in Hg. now rewrite V5_handleSubmit_blank. }
  apply truthy_trim in Hg.
  destruct (V5.validateResponse (V5.currentInput s) (V5.currentQuestionIndex s)) eqn:Hv.
  2: { rewrite V5_handleSubmit_invalid by assumption. exact Hinv. }
  rewrite V5_handleSubmit_accept by assumption. cbv zeta.
  destruct Hinv as (Hi & Hd & Ha & Hc).
  pose proof (V5_newUserData_valid _ _ _ Hd Hv) as Hd'.
  pose proof (V5_newUserData_answered_next (V5.userData s) (V5.currentInput s) _ Hi Ha) as Ha'.
  destruct (_ <=? _) eqn:E.
  - apply Nat.leb_le in E. simpl in E, Hi.
    assert (E4 : V5.currentQuestionIndex s = 4) by lia.
    unfold V5_inv, V5.submitUserData. simpl. rewrite E4 in Ha', Hd' |- *.
    split; [vm_compute; lia|]. split; [exact Hd'|].
    split; [intros j Hj; apply Ha'; lia|]. intros _. exact Ha'.
  - apply Nat.leb_gt in E. simpl in E.
    unfold V5_inv. simpl. rewrite Nat.add_1_r.
    split; [simpl; lia|]. split; [exact Hd'|]. split; [exact Ha'|].
    intros Hcomp. apply V5_newUserData_answered, Hc, Hcomp.
Qed.

Lemma V5_saveEdit_inv messageId questionIndex s :
  V5_inv s -> V5_inv (V5.saveEdit messageId questionIndex s).
Proof.
  intros Hinv. unfold V5.saveEdit.
  destruct (negb (JS.truthy _)); [exact Hinv|].
  destruct questionIndex as [i|]; [|exact Hinv].
  destruct (V5.validateResponse (V5.editValue s) i) eqn:Hv; [|exact Hinv].
  destruct Hinv as (Hi & Hd & Ha & Hc). unfold V5_inv. simpl.
  split; [exact Hi|]. split; [now apply V5_newUserData_valid|].
  split; [now apply V5_newUserData_answered|].
  intros Hcomp. apply V5_newUserData_answered, Hc, Hcomp.
Qed.

Lemma V5_dispatch_inv e s : V5_inv s -> V5_inv (V5.dispatch e s).
Proof.
  intros Hinv. destruct e as [text|now now'|k|text|k| | |k now]; simpl.
  - destruct (_ && _); exact Hinv.
  - destruct (_ && _); [now apply V5_handleSubmit_inv | exact Hinv].
  - destruct (V5.messages s !! k); [|exact Hinv]. destruct (_ && _); exact Hinv.
  - destruct (existsb _ _); exact Hinv.
  - destruct (V5.messages s !! k) as [msg|]; [|exact Hinv].
    destruct (V5.editing msg s); [now apply V5_saveEdit_inv | exact Hinv].
  - destruct (existsb _ _); exact Hinv.
  - unfold V5_inv. simpl.
    split; [vm_compute; lia|]. split; [apply V5_validData_empty|].
    split; [intros j Hj; lia | discriminate].
  - destruct (V5.timers s !! k) as [[d|d i|d i]|]; try exact Hinv.
    unfold V5.askQuestion. destruct (_ <=? _); exact Hinv.
Qed.

Lemma V5_mounted_inv t : V5_inv (V5.mounted t).
Proof.
  unfold V5_inv. simpl.
  split; [vm_compute; lia|]. split; [apply V5_validData_empty|].
  split; [intros j Hj; lia | discriminate].
Qed.

Lemma V5_run_inv es s : V5_inv s -> V5_inv (V5.run es s).
Proof.
  revert s. induction es as [|e es IH]; intros s H; [exact H|].
  simpl. apply IH. now apply V5_dispatch_inv.
Qed.

(** ** Properties of every run *)

(** X10.  Whatever the user does and whenever the timers fire, the
    question index stays inside the question list (below 7, below 5), so
    an answer is always checked by the validator of an existing question. *)
Theorem question_index_stays_in_range :
  (forall t es, V7.currentQuestionIndex (V7.run es (V7.mounted t)) < length V7.questions) /\
  (forall t es, V5.currentQuestionIndex (V5.run es (V5.mounted t)) < length V5.questions).
Proof.
  split; intros t es.
  - apply (V7_run_inv es _ (V7_mounted_inv t)).
  - apply (V5_run_inv es _ (V5_mounted_inv t)).
Qed.

(** X11.  In every run the accumulator holds only values accepted by
    their validators (names of at least two characters, numbers within
    their ranges, options of the option sets, a location with a comma, no
    empty skill), edits included; every question before the current one
    has its value, and once the conversation is complete every question
    has. *)
Theorem accumulator_holds_validated_answers :
  (forall t es, let s := V7.run es (V7.mounted t) in
     V7_validData (V7.userData s) /\
     V7_answered (V7.userData s) (V7.currentQuestionIndex s) /\
     (V7.isComplete s = true -> V7_answered (V7.userData s) (length V7.questions))) /\
  (forall t es, let s := V5.run es (V5.mounted t) in
     V5_validData (V5.userData s) /\
     V5_answered (V5.userData s) (V5.currentQuestionIndex s) /\
     (V5.isComplete s = true -> V5_answered (V5.userData s) (length V5.questions))).
Proof.
  split; intros t es s; subst s.
  - destruct (V7_run_inv es _ (V7_mounted_inv t)) as (_ & H1 & H2 & H3 & _). auto.
  - destruct (V5_run_inv es _ (V5_mounted_inv t)) as (_ & H1 & H2 & H3). auto.
Qed.

(** X12.  Every record posted to the collaborator, in any run, has all
    seven fields filled with validated values; in particular its profile
    count is an integer from 1 to 5, which is what the fallback slices the
    sample list with. *)
Theorem posted_records_are_complete :
  forall t es,
    Forall (fun r =>
              V7_validData r /\ V7_answered r (length V7.questions) /\
              exists n, V7.profileCount r = Some (JS.Int n) /\ (1 <= n <= 5)%Z)
           (V7.requests (V7.run es (V7.mounted t))).
Proof.
  intros t es.
  destruct (V7_run_inv es _ (V7_mounted_inv t)) as (_ & _ & _ & _ & H).
  eapply Forall_impl; [exact H|]. intros r [Hv Ha]. split; [exact Hv|]. split; [exact Ha|].
  destruct (Ha 6) as [x Hx]; [simpl; lia|]. simpl in Hx.
  destruct (V7.profileCount r) as [c|] eqn:Ec; [|discriminate].
  destruct Hv as (_ & _ & _ & _ & _ & _ & H7).
  destruct (H7 c Ec) as (n & -> & Hn). eauto.
Qed.

(** ** Start over *)

Lemma delete_last {A} (l : list A) (x : A) : delete (length l) (l ++ [x]) = l.
Proof. induction l as [|a l IH]; simpl; [reflexivity | now f_equal]. Qed.

Lemma V7_dispatch_fire k now s :
  V7.crashed s = false ->
  V7.dispatch (V7.Fire k now) s =
  match V7.timers s !! k with
  | Some (TInitializeChat _) => V7.initializeChat now (V7.clearTimeout k s)
  | Some (TAskQuestion _ i) => V7.askQuestion i (V7.clearTimeout k s)
  | Some (TPostQuestion _ i) => V7.postQuestion now i (V7.clearTimeout k s)
  | None => s
  end.
Proof. intros H. unfold V7.dispatch. now rewrite H. Qed.

(** X13.  The start-over button empties the log and the accumulator and
    schedules [initializeChat], but cancels none of the timers already
    pending.  When the scheduled timer fires, the conversation restarts
    with the greeting alone, whatever the state was; a question timer
    pending from before the reset still fires, and posts its old question
    into the emptied log. *)
Theorem start_over_keeps_pending_timers :
  (forall s now,
     let s' := V7.dispatch (V7.Fire (length (V7.timers s)) now) (V7.startOver s) in
     V7.messages s' =
       [mkMessage (JS.str "1") bot
          (JS.str "Hi! I'm here to help you find the perfect job match. Let's start with a few questions to build your profile.")
          now None] /\
     V7.currentQuestionIndex s' = 0 /\ V7.userData s' = V7.emptyUserData /\
     V7.isComplete s' = false /\ V7.matches s' = V7.JArray [] /\
     V7.editingMessageId s' = None /\
     V7.timers s' = V7.timers s ++ [TAskQuestion 1500 0]) /\
  (forall s k d i now, V7.timers s !! k = Some (TPostQuestion d i) ->
     V7.messages (V7.dispatch (V7.Fire k now) (V7.startOver s)) =
       [mkMessage (JS.toString now) bot (nth i V7.questions []) now None]) /\
  (forall s now,
     let s' := V5.dispatch (V5.Fire (length (V5.timers s)) now) (V5.startOver s) in
     V5.messages s' =
       [mkMessage (JS.str "1") bot
          (JS.str "Hi! I'm here to help you find the perfect job match. Let's start with a few questions.")
          now None] /\
     V5.currentQuestionIndex s' = 0 /\ V5.userData s' = V5.emptyUserData /\
     V5.isComplete s' = false /\ V5.matches s' = [] /\
     V5.editingMessageId s' = None /\
     V5.timers s' = V5.timers s ++ [TAskQuestion 1500 0]) /\
  (forall s k d i now, V5.timers s !! k = Some (TPostQuestion d i) ->
     V5.messages (V5.dispatch (V5.Fire k now) (V5.startOver s)) =
       [mkMessage (JS.toString now) bot (nth i V5.questions []) now None]).
Proof.
  split; [|split; [|split]].
  - intros s now s'. subst s'. rewrite V7_dispatch_fire by reflexivity.
    change (V7.timers (V7.startOver s)) with (V7.timers s ++ [TInitializeChat 500]).
    rewrite list_lookup_middle by reflexivity.
    unfold V7.initializeChat, V7.clearTimeout. simpl.
    rewrite delete_last. repeat split.
  - intros s k d i now Hk. rewrite V7_dispatch_fire by reflexivity.
    change (V7.timers (V7.startOver s)) with (V7.timers s ++ [TInitializeChat 500]).
    rewrite (lookup_app_l_Some _ _ _ _ Hk).
    unfold V7.postQuestion. destruct (_ || _); reflexivity.
  - intros s now s'. subst s'. unfold V5.dispatch.
    change (V5.timers (V5.startOver s)) with (V5.timers s ++ [TInitializeChat 500]).
    rewrite list_lookup_middle by reflexivity.
    unfold V5.initializeChat, V5.clearTimeout. simpl.
    rewrite delete_last. repeat split.
  - intros s k d i now Hk. unfold V5.dispatch.
    change (V5.timers (V5.startOver s)) with (V5.timers s ++ [TInitializeChat 500]).
    rewrite (lookup_app_l_Some _ _ _ _ Hk). reflexivity.
Qed.

Lemma start_over_keeps_pending_timers_witness :
  V7.messages
    (V7.dispatch (V7.Fire 0 2600)
       (V7.startOver (V7.run [V7.Fire 0 1500] (V7.mounted 0))))
  = [mkMessage (JS.toString 2600) bot (nth 0 V7.questions []) 2600 None].
Proof.
  apply (proj1 (proj2 start_over_keeps_pending_timers)
           (V7.run [V7.Fire 0 1500] (V7.mounted 0)) 0 1000%Z 0 2600%Z).
  vm_compute. reflexivity.
Defined.

(** ** Stability of the log *)

Lemma sameButContent_refl m : sameButContent m m.
Proof. repeat split. Qed.

Lemma V7_submitUserData_prefix f now data s :
  exists tail, V7.messages (V7.submitUserData f now data s) = V7.messages s ++ tail.
Proof.
  unfold V7.submitUserData.
  destruct (V7.submitProfileData f) as [[[l| |t b]|[]] c]; simpl;
    first [now eexists | exists []; now rewrite app_nil_r].
Qed.

Lemma V7_handleSubmit_prefix f now now' s :
  exists tail, V7.messages (V7.handleSubmit f now now' s) = V7.messages s ++ tail.
Proof.
  destruct (negb (JS.truthy (JS.trim (V7.currentInput s)))) eqn:Hg.
  { apply not_truthy_trim in Hg. rewrite V7_handleSubmit_blank by exact Hg.
    exists []. now rewrite app_nil_r. }
  apply truthy_trim in Hg.
  destruct (V7.validateResponse (V7.currentInput s) (V7.currentQuestionIndex s)) eqn:Hv.
  2: { rewrite V7_handleSubmit_invalid by assumption. exists []. simpl. now rewrite app_nil_r. }
  rewrite V7_handleSubmit_accept by assumption. cbv zeta.
  destruct (_ <=? _); [|now eexists].
  destruct (V7_submitUserData_prefix f now'
              (V7.newUserData (V7.userData s) (V7.currentInput s) (V7.currentQuestionIndex s))
              (V7.setIsComplete true (V7.setShowOptions false (V7.setCurrentInput []
                (V7.setUserData
                   (V7.newUserData (V7.userData s) (V7.currentInput s) (V7.currentQuestionIndex s))
                   (V7.setMessages (fun prev => prev ++
                      [mkMessage (JS.toString now) user (V7.currentInput s) now
                         (Some (V7.currentQuestionIndex s))]) s))))))
    as [tail ->].
  simpl. rewrite <- app_assoc. now eexists.
Qed.

Lemma V5_handleSubmit_prefix now now' s :
  exists tail, V5.messages (V5.handleSubmit now now' s) = V5.messages s ++ tail.
Proof.
  destruct (negb (JS.truthy (JS.trim (V5.currentInput s)))) eqn:Hg.
  { apply not_truthy_trim in Hg. rewrite V5_handleSubmit_blank by exact Hg.
    exists []. now rewrite app_nil_r. }
  apply truthy_trim in Hg.
  destruct (V5.validateResponse (V5.currentInput s) (V5.currentQuestionIndex s)) eqn:Hv.
  2: { rewrite V5_handleSubmit_invalid by assumption. exists []. simpl. now rewrite app_nil_r. }
  rewrite V5_handleSubmit_accept by assumption. cbv zeta.
  destruct (_ <=? _); [|now eexists].
  unfold V5.submitUserData. simpl. rewrite <- app_assoc. now eexists.
Qed.

Lemma V7_saveEdit_lookup messageId questionIndex s k m :
  V7.messages s !! k = Some m ->
  exists m', V7.messages (V7.saveEdit messageId questionIndex s) !! k = Some m' /\
             sameButContent m m'.
Proof.
  intros Hk.
  assert (Hm : forall s2, V7.messages s2 = map (fun msg =>
            if decide (id msg = messageId) then withContent (V7.editValue s) msg else msg)
            (V7.messages s) ->
          exists m', V7.messages s2 !! k = Some m' /\ sameButContent m m').
  { intros s2 ->. rewrite lookup_map, Hk. simpl.
    destruct (decide (id m = messageId)); eexists; (split; [reflexivity|]); repeat split. }
  unfold V7.saveEdit.
  destruct (negb (JS.truthy _)); [exists m; split; [exact Hk | apply sameButContent_refl]|].
  destruct questionIndex as [i|]; [|apply Hm; reflexivity].
  destruct (negb (V7.validateResponse (V7.editValue s) i));
    [exists m; split; [exact Hk | apply sameButContent_refl] | apply Hm; reflexivity].
Qed.

Lemma V5_saveEdit_lookup messageId questionIndex s k m :
  V5.messages s !! k = Some m ->
  exists m', V5.messages (V5.saveEdit messageId questionIndex s) !! k = Some m' /\
             sameButContent m m'.
Proof.
  intros Hk.
  assert (Hm : forall s2, V5.messages s2 = map (fun msg =>
            if decide (id msg = messageId) then withContent (V5.editValue s) msg else msg)
            (V5.messages s) ->
          exists m', V5.messages s2 !! k = Some m' /\ sameButContent m m').
  { intros s2 ->. rewrite lookup_map, Hk. simpl.
    destruct (decide (id m = messageId)); eexists; (split; [reflexivity|]); repeat split. }
  unfold V5.saveEdit.
  destruct (negb (JS.truthy _)); [exists m; split; [exact Hk | apply sameButContent_refl]|].
  destruct questionIndex as [i|]; [|apply Hm; reflexivity].
  destruct (negb (V5.validateResponse (V5.editValue s) i));
    [exists m; split; [exact Hk | apply sameButContent_refl] | apply Hm; reflexivity].
Qed.

(** X14.  Apart from the start-over button and the [initializeChat]
    timer, no event removes or reorders a message: the message at any
    position of the log stays at that position with its id, type, time
    stamp and slot index, and its text too unless the event is the save
    button of an edit. *)
Theorem log_entries_are_stable :
  (forall e s k m, V7_resets e s = false -> V7.messages s !! k = Some m ->
     exists m', V7.messages (V7.dispatch e s) !! k = Some m' /\ sameButContent m m' /\
                ((forall j, e <> V7.ClickSave j) -> m' = m)) /\
  (forall e s k m, V5_resets e s = false -> V5.messages s !! k = Some m ->
     exists m', V5.messages (V5.dispatch e s) !! k = Some m' /\ sameButContent m m' /\
                ((forall j, e <> V5.ClickSave j) -> m' = m)).
Proof.
  split.
  - intros e s k m Hr Hk.
    assert (Hsame : forall s', V7.messages s' = V7.messages s ->
              exists m', V7.messages s' !! k = Some m' /\ sameButContent m m' /\
                         ((forall j, e <> V7.ClickSave j) -> m' = m)).
    { intros s' ->. exists m. split; [exact Hk|]. split; [apply sameButContent_refl | auto]. }
    assert (Happ : forall s' tail, V7.messages s' = V7.messages s ++ tail ->
              exists m', V7.messages s' !! k = Some m' /\ sameButContent m m' /\
                         ((forall j, e <> V7.ClickSave j) -> m' = m)).
    { intros s' tail ->. exists m. split; [now apply lookup_app_l_Some|].
      split; [apply sameButContent_refl | auto]. }
    unfold V7.dispatch. destruct (V7.crashed s); [now apply Hsame|].
    destruct e as [text|f now now'|j|j|text|j| | |j now]; simpl in Hr |- *.
    + apply Hsame. now destruct (_ && _).
    + destruct (_ && _); [|now apply Hsame].
      destruct (V7_handleSubmit_prefix f now now' s) as [tail Ht]. now apply (Happ _ tail).
    + apply Hsame. destruct (V7.shownOptions s !! j); [|reflexivity]. now destruct (_ && _).
    + apply Hsame. destruct (V7.messages s !! j); [|reflexivity]. now destruct (_ && _).
    + apply Hsame. now destruct (existsb _ _).
    + destruct (V7.messages s !! j) as [msg|]; [|now apply Hsame].
      destruct (V7.editing msg s); [|now apply Hsame].
      destruct (V7_saveEdit_lookup (id msg) (questionIndex msg) s k m Hk) as (m' & H1 & H2).
      exists m'. split; [exact H1|]. split; [exact H2|]. intros H. now destruct (H j).
    + apply Hsame. now destruct (existsb _ _).
    + discriminate.
    + destruct (V7.timers s !! j) as [[d|d i|d i]|]; [discriminate| | |now apply Hsame].
      * apply Hsame. unfold V7.askQuestion. now destruct (_ <=? _).
      * apply (Happ _ [mkMessage (JS.toString now) bot (nth i V7.questions []) now None]).
        unfold V7.postQuestion. now destruct (_ || _).
  - intros e s k m Hr Hk.
    assert (Hsame : forall s', V5.messages s' = V5.messages s ->
              exists m', V5.messages s' !! k = Some m' /\ sameButContent m m' /\
                         ((forall j, e <> V5.ClickSave j) -> m' = m)).
    { intros s' ->. exists m. split; [exact Hk|]. split; [apply sameButContent_refl | auto]. }
    assert (Happ : forall s' tail, V5.messages s' = V5.messages s ++ tail ->
              exists m', V5.messages s' !! k = Some m' /\ sameButContent m m' /\
                         ((forall j, e <> V5.ClickSave j) -> m' = m)).
    { intros s' tail ->. exists m. split; [now apply lookup_app_l_Some|].
      split; [apply sameButContent_refl | auto]. }
    destruct e as [text|now now'|j|text|j| | |j now]; simpl in Hr |- *.
    + apply Hsame. now destruct (_ && _).
    + destruct (_ && _); [|now apply Hsame].
      destruct (V5_handleSubmit_prefix now now' s) as [tail Ht]. now apply (Happ _ tail).
    + apply Hsame. destruct (V5.messages s !! j); [|reflexivity]. now destruct (_ && _).
    + apply Hsame. now destruct (existsb _ _).
    + destruct (V5.messages s !! j) as [msg|]; [|now apply Hsame].
      destruct (V5.editing msg s); [|now apply Hsame].
      destruct (V5_saveEdit_lookup (id msg) (questionIndex msg) s k m Hk) as (m' & H1 & H2).
      exists m'. split; [exact H1|]. split; [exact H2|]. intros H. now destruct (H j).
    + apply Hsame. now destruct (existsb _ _).
    + discriminate.
    + destruct (V5.timers s !! j) as [[d|d i|d i]|]; [discriminate| | |now apply Hsame].
      * apply Hsame. unfold V5.askQuestion. now destruct (_ <=? _).
      * now apply (Happ _ [mkMessage (JS.toString now) bot (nth i V5.questions []) now None]).
Qed.

Lemma log_entries_are_stable_witness :
  let s := V7.setCurrentInput (JS.str "7") V7_atJobLevel in
  let m := mkMessage (JS.toString 5000) user (JS.str "Ana") 5000 (Some 0) in
  exists m', V7.messages (V7.dispatch (V7.SubmitForm V7.NetworkError 17000 19000) s) !! 2
               = Some m' /\ sameButContent m m' /\
             ((forall j, V7.SubmitForm V7.NetworkError 17000 19000 <> V7.ClickSave j) -> m' = m).
Proof.
  apply (proj1 log_entries_are_stable (V7.SubmitForm V7.NetworkError 17000 19000)
           (V7.setCurrentInput (JS.str "7") V7_atJobLevel) 2
           (mkMessage (JS.toString 5000) user (JS.str "Ana") 5000 (Some 0))).
  - reflexivity.
  - vm_compute. reflexivity.
Defined.

(** ** What an edit leaves alone *)

(** X15.  Saving an edit, accepted or rejected, never moves the
    conversation: the question index, the completion and loading flags,
    the profiles shown, the typed answer and the pending timers are as
    before, and (seven-question variant) no request is posted, so results
    already shown are not recomputed from an edited answer. *)
Theorem edit_never_moves_the_conversation :
  (forall messageId questionIndex s,
     let s' := V7.saveEdit messageId questionIndex s in
     V7.currentQuestionIndex s' = V7.currentQuestionIndex s /\
     V7.isComplete s' = V7.isComplete s /\ V7.isLoading s' = V7.isLoading s /\
     V7.matches s' = V7.matches s /\ V7.currentInput s' = V7.currentInput s /\
     V7.timers s' = V7.timers s /\ V7.requests s' = V7.requests s /\
     length (V7.messages s') = length (V7.messages s)) /\
  (forall messageId questionIndex s,
     let s' := V5.saveEdit messageId questionIndex s in
     V5.currentQuestionIndex s' = V5.currentQuestionIndex s /\
     V5.isComplete s' = V5.isComplete s /\ V5.isLoading s' = V5.isLoading s /\
     V5.matches s' = V5.matches s /\ V5.currentInput s' = V5.currentInput s /\
     V5.timers s' = V5.timers s /\
     length (V5.messages s') = length (V5.messages s)).
Proof.
  split; intros messageId questionIndex s s'; subst s'.
  - unfold V7.saveEdit. destruct (negb (JS.truthy _)); [repeat split|].
    destruct questionIndex as [i|];
      [destruct (negb (V7.validateResponse (V7.editValue s) i))|];
      simpl; repeat split; apply length_map.
  - unfold V5.saveEdit. destruct (negb (JS.truthy _)); [repeat split|].
    destruct questionIndex as [i|];
      [destruct (negb (V5.validateResponse (V5.editValue s) i))|];
      simpl; repeat split; apply length_map.
Qed.

(** ** Answering ahead of the question *)

Lemma V7_dispatch_submit_advances f now now' s :
  V7.crashed s = false -> V7.isComplete s = false -> V7.isTyping s = false ->
  V7.validateResponse (V7.currentInput s) (V7.currentQuestionIndex s) = true ->
  V7.currentQuestionIndex s < length V7.questions - 1 ->
  V7.dispatch (V7.SubmitForm f now now') s =
  V7.setTimeout (TAskQuestion 500 (V7.currentQuestionIndex s + 1))
    (V7.setCurrentQuestionIndex (fun prev => prev + 1)
      (V7.setShowOptions false (V7.setCurrentInput []
        (V7.setUserData
           (V7.newUserData (V7.userData s) (V7.currentInput s) (V7.currentQuestionIndex s))
           (V7.setMessages (fun prev => prev ++
              [mkMessage (JS.toString now) user (V7.currentInput s) now
                 (Some (V7.currentQuestionIndex s))]) s))))).
Proof.
  intros Hcr Hc Ht Hv Hi.
  assert (Hb : ~ blank (V7.currentInput s))
    by (apply (V7_valid_not_blank _ (V7.currentQuestionIndex s)); [simpl in *; lia | exact Hv]).
  pose proof Hb as Hg. apply truthy_trim, negb_false_iff in Hg.
  unfold V7.dispatch. rewrite Hcr, Hc, Ht, Hg. simpl andb. cbv iota.
  rewrite V7_handleSubmit_accept by assumption. cbv zeta.
  apply Nat.leb_gt in Hi. now rewrite Hi.
Qed.

(** X16.  The answer form is disabled only while a question is being
    typed out, and that starts 500 ms after an accepted answer.  In between
    the index has already moved on, so a second answer can be sent at
    once (in a state that renders): it is validated against the next
    question, which has not been posted yet, and the log then holds two
    answers in a row with both questions still to come. *)
Theorem next_answer_can_precede_its_question :
  forall f1 n1 n1' f2 n2 n2' s t2,
    V7.crashed s = false ->
    V7.isComplete s = false -> V7.isTyping s = false ->
    V7.currentQuestionIndex s + 1 < length V7.questions - 1 ->
    V7.validateResponse (V7.currentInput s) (V7.currentQuestionIndex s) = true ->
    V7.validateResponse t2 (V7.currentQuestionIndex s + 1) = true ->
    let i := V7.currentQuestionIndex s in
    let s' := V7.run [V7.SubmitForm f1 n1 n1'; V7.TypeAnswer t2; V7.SubmitForm f2 n2 n2'] s in
    V7.currentQuestionIndex s' = i + 2 /\
    V7.messages s' = V7.messages s ++
      [mkMessage (JS.toString n1) user (V7.currentInput s) n1 (Some i);
       mkMessage (JS.toString n2) user t2 n2 (Some (i + 1))] /\
    V7.timers s' = V7.timers s ++ [TAskQuestion 500 (i + 1); TAskQuestion 500 (i + 2)] /\
    V7.userData s' =
      V7.newUserData (V7.newUserData (V7.userData s) (V7.currentInput s) i) t2 (i + 1).
Proof.
  intros f1 n1 n1' f2 n2 n2' s t2 Hcr Hc Ht Hi Hv1 Hv2 i s'. subst i s'.
  change (V7.run [V7.SubmitForm f1 n1 n1'; V7.TypeAnswer t2; V7.SubmitForm f2 n2 n2'] s)
    with (V7.dispatch (V7.SubmitForm f2 n2 n2')
            (V7.dispatch (V7.TypeAnswer t2) (V7.dispatch (V7.SubmitForm f1 n1 n1') s))).
  rewrite (V7_dispatch_submit_advances f1 n1 n1' s) by (try assumption; lia).
  match goal with
  | |- context [V7.dispatch (V7.TypeAnswer t2) ?st] =>
      assert (E : V7.dispatch (V7.TypeAnswer t2) st = V7.setCurrentInput t2 st)
        by (unfold V7.dispatch; change (V7.crashed st) with (V7.crashed s);
            simpl V7.isComplete; simpl V7.isTyping;
            rewrite Hcr, Hc, Ht; reflexivity);
      rewrite E; clear E
  end.
  rewrite V7_dispatch_submit_advances; [|exact Hcr | exact Hc | exact Ht | exact Hv2 | exact Hi].
  simpl. rewrite <- !app_assoc, <- Nat.add_assoc. repeat split.
Qed.

Lemma next_answer_can_precede_its_question_witness :
  let s := V7.setCurrentInput (JS.str "Ana") V7_atName in
  let s' := V7.run [V7.SubmitForm V7.NetworkError 5000 7000; V7.TypeAnswer (JS.str "Engineer");
                    V7.SubmitForm V7.NetworkError 5100 7100] s in
  V7.currentQuestionIndex s' = V7.currentQuestionIndex s + 2 /\
  V7.messages s' = V7.messages s ++
    [mkMessage (JS.toString 5000) user (JS.str "Ana") 5000 (Some (V7.currentQuestionIndex s));
     mkMessage (JS.toString 5100) user (JS.str "Engineer") 5100
       (Some (V7.currentQuestionIndex s + 1))].
Proof.
  destruct (next_answer_can_precede_its_question V7.NetworkError 5000 7000
              V7.NetworkError 5100 7100
              (V7.setCurrentInput (JS.str "Ana") V7_atName) (JS.str "Engineer"))
    as (H1 & H2 & _).
  - reflexivity.
  - reflexivity.
  - reflexivity.
  - vm_compute. lia.
  - vm_compute. reflexivity.
  - vm_compute. reflexivity.
  - split; [exact H1 | exact H2].
Defined.
